(** * Loan amortization and payment schedules: the mortgage calculator

    A shallow embedding of [MortgagePaymentCalculator]
    (LoanAmortization&PaymentSchedule.py): the constructor, which derives the
    four periodic rates, [calculatepayments], which sizes the six payments, and
    [generate_schedule], which simulates every plan period by period.

    Numbers.  The program computes with Python floats (IEEE-754 doubles, and
    NumPy's float64 once [np.round] has been applied).  The embedding is
    parametric in that arithmetic: the class [Arith] lists the operations the
    program uses, and the code is written once over it.  Two instances follow:
    [binary64], the doubles of the program, with the platform's [pow] left as
    a parameter, and [exact], exact rationals, an idealisation in which no
    amount overflows or is a NaN and whose schedules can differ from those of
    the program.  A theorem stated for every [Arith] holds for whatever
    implements the operations, doubles included.  Theorems that depend on the
    value of an operation (the sign of a balance, a zero, a NaN) are stated
    for [binary64].

    The object.  The methods read the attributes of one object and
    [__init__] assigns them: [object] and [method] model that store, with an
    attribute that may be missing, and the functions over the record
    [MortgagePaymentCalculator] are shown to be what the methods compute on
    the object [__init__] leaves. *)

From Stdlib Require Import ZArith QArith Qround Floats List String Bool Lia Lqa.

Set Warnings "-inexact-float".
Import ListNotations.
Open Scope string_scope.
Open Scope list_scope.
Open Scope Z_scope.

Set Implicit Arguments.

(** ** Exceptions *)

(** The Python exceptions the computation can raise. *)
Inductive exn : Type :=
| ZeroDivisionError   (* [x / 0], [0.0 ** negative] *)
| OverflowError       (* [x ** y] out of range, an int too large for a float *)
| ComplexPower        (* not an exception: [x ** y] is a complex number,
                         which the embedding does not follow *)
| KeyError.           (* a dict looked up at an absent key *)

Inductive result (A : Type) : Type :=
| Ok (a : A)
| Raise (e : exn).
Arguments Ok {A} a.
Arguments Raise {A} e.

Definition bind {A B : Type} (m : result A) (k : A -> result B) : result B :=
  match m with
  | Ok a => k a
  | Raise e => Raise e
  end.

Declare Scope result_scope.
Delimit Scope result_scope with result.
Notation "x <- m ;; k" := (bind m (fun x => k))
  (at level 100, m at next level, right associativity) : result_scope.
Open Scope result_scope.

(** ** The arithmetic of the program *)

Class Arith (F : Type) : Type := {
  (** the float nearest to an int (exact on the literals of the program) *)
  lit : Z -> F;
  (** whether converting the int raises [OverflowError] *)
  of_Z_overflows : Z -> bool;
  fadd : F -> F -> F;
  fsub : F -> F -> F;
  fmul : F -> F -> F;
  (** the quotient by a non-zero divisor *)
  fdiv : F -> F -> F;
  (** [==], [<] and [<=] *)
  feqb : F -> F -> bool;
  fltb : F -> F -> bool;
  fleb : F -> F -> bool;
  (** [x ** y] *)
  fpow : F -> F -> result F;
  (** [np.round(x, 2)]: times 100, to the nearest integer (ties to even),
      divided by 100 *)
  round2 : F -> F
}.

Declare Scope arith_scope.
Delimit Scope arith_scope with F.
Infix ".+" := fadd (at level 50, left associativity) : arith_scope.
Infix ".-" := fsub (at level 50, left associativity) : arith_scope.
Infix ".*" := fmul (at level 40, left associativity) : arith_scope.
Infix "./" := fdiv (at level 40, left associativity) : arith_scope.
Infix "**" := fpow (at level 30, right associativity) : arith_scope.
Open Scope arith_scope.

Section Calculator.

Context {F : Type} {A : Arith F}.

(** An int met where a float is expected ([float / int], [int * float],
    [float ** int]). *)
Definition float_of_int (n : Z) : result F :=
  if of_Z_overflows n then Raise OverflowError else Ok (lit n).

(** Python's true division [x / y]. *)
Definition truediv (x y : F) : result F :=
  if feqb y (lit 0) then Raise ZeroDivisionError else Ok (x ./ y).

(** The object: the four attributes [__init__] stores and the four periodic
    rates it derives. *)
Record MortgagePaymentCalculator : Type := {
  principal : F;
  interestrate : F;
  amortization_period : Z;
  term : Z;
  monthlyinterestrate : F;
  semimonthlyinterestrate : F;
  biweeklyinterestrate : F;
  weeklyinterestrate : F
}.

(** [__init__(self, principal, interestrate, amortization_period, term)].
    The rate comes in as a percentage and is stored as a fraction.  The
    divisions are by the literals 100, 2, 12, 24, 26 and 52 and cannot raise. *)
Definition init (principal_ interestrate_ : F) (amortization_period_ term_ : Z)
  : result MortgagePaymentCalculator :=
  let rate := interestrate_ ./ lit 100 in
  m <- (lit 1 .+ rate ./ lit 2) ** (lit 2 ./ lit 12) ;;
  s <- (lit 1 .+ rate ./ lit 2) ** (lit 2 ./ lit 24) ;;
  b <- (lit 1 .+ rate ./ lit 2) ** (lit 2 ./ lit 26) ;;
  w <- (lit 1 .+ rate ./ lit 2) ** (lit 2 ./ lit 52) ;;
  Ok {| principal := principal_;
        interestrate := rate;
        amortization_period := amortization_period_;
        term := term_;
        monthlyinterestrate := m .- lit 1;
        semimonthlyinterestrate := s .- lit 1;
        biweeklyinterestrate := b .- lit 1;
        weeklyinterestrate := w .- lit 1 |}.

(** The inner function of [calculatepayments]:
    [P * (r * (1 + r)**n) / ((1 + r)**n - 1)], or [P / n] at a zero rate.
    [periods] is the period count already as a float. *)
Definition calculate_payment (self : MortgagePaymentCalculator)
    (periodic_rate periods : F) : result F :=
  if feqb periodic_rate (lit 0) then
    truediv (principal self) periods
  else
    x <- (lit 1 .+ periodic_rate) ** periods ;;
    y <- (lit 1 .+ periodic_rate) ** periods ;;
    truediv (principal self .* (periodic_rate .* x)) (y .- lit 1).

(** The six payments, in the order of the returned tuple. *)
Record payments : Type := {
  MonthlyPayment : F;
  SemiMonthlyPayment : F;
  BiweeklyPayment : F;
  WeeklyPayment : F;
  RapidBiweeklyPayment : F;
  RapidWeeklyPayment : F
}.

(** [calculatepayments(self)].  [n_months] is an int; the counts handed to
    [calculate_payment] are the ints [n_months] and [n_months * 2] and the
    floats [n_months * (26/12)] and [n_months * (52/12)]. *)
Definition calculatepayments (self : MortgagePaymentCalculator) : result payments :=
  let n_months := (amortization_period self * 12)%Z in
  n1 <- float_of_int n_months ;;
  Monthly <- calculate_payment self (monthlyinterestrate self) n1 ;;
  n2 <- float_of_int (n_months * 2)%Z ;;
  SemiMonthly <- calculate_payment self (semimonthlyinterestrate self) n2 ;;
  n3 <- float_of_int n_months ;;
  Biweekly <- calculate_payment self (biweeklyinterestrate self) (n3 .* (lit 26 ./ lit 12)) ;;
  n4 <- float_of_int n_months ;;
  Weekly <- calculate_payment self (weeklyinterestrate self) (n4 .* (lit 52 ./ lit 12)) ;;
  Ok {| MonthlyPayment := Monthly;
        SemiMonthlyPayment := SemiMonthly;
        BiweeklyPayment := Biweekly;
        WeeklyPayment := Weekly;
        RapidBiweeklyPayment := Monthly ./ lit 2;
        RapidWeeklyPayment := Monthly ./ lit 4 |}.

(** ** Dicts and ranges *)

(** A dict with string keys, in insertion order. *)
Definition dict (V : Type) : Type := list (string * V).

(** [d[k]] *)
Fixpoint dict_get {V : Type} (d : dict V) (k : string) : result V :=
  match d with
  | [] => Raise KeyError
  | (k', v) :: d' => if String.eqb k k' then Ok v else dict_get d' k
  end.

(** [d[k] = v]: the value of an existing key is replaced, a new key goes last. *)
Fixpoint dict_set {V : Type} (d : dict V) (k : string) (v : V) : dict V :=
  match d with
  | [] => [(k, v)]
  | (k', v') :: d' =>
      if String.eqb k k' then (k', v) :: d' else (k', v') :: dict_set d' k v
  end.

(** [range(start, stop)] *)
Definition range (start stop : Z) : list Z :=
  map (fun k => start + Z.of_nat k)%Z (seq 0 (Z.to_nat (stop - start))).

(** ** The schedule of one plan *)

(** The five lists the loop appends to. *)
Record columns : Type := {
  period : list Z;
  beginning_balance : list F;
  interest : list F;
  principal_paid : list F;
  ending_balance : list F
}.

Definition no_columns : columns :=
  {| period := []; beginning_balance := []; interest := [];
     principal_paid := []; ending_balance := [] |}.

(** The body of [for i in range(1, Term_Periods + 1)] up to the update of
    [current_balance]: the lists after the appends and the new balance. *)
Definition period_body (Pmt Rate : F) (i : Z) (st : columns * F) : columns * F :=
  let '(cols, current_balance) := st in
  let I_Pmt := round2 (current_balance .* Rate) in
  let Principal_Pmt := round2 (Pmt .- I_Pmt) in
  let '(Principal_Pmt, Ending_Bal) :=
    if fltb (current_balance .- Principal_Pmt) (lit 0)
    then (current_balance, lit 0)
    else (Principal_Pmt, round2 (current_balance .- Principal_Pmt)) in
  ({| period := period cols ++ [i];
      beginning_balance := beginning_balance cols ++ [round2 current_balance];
      interest := interest cols ++ [I_Pmt];
      principal_paid := principal_paid cols ++ [Principal_Pmt];
      ending_balance := ending_balance cols ++ [Ending_Bal] |},
   Ending_Bal).

(** The loop over the periods, left by [break] once the balance is [<= 0.0]. *)
Fixpoint period_loop (Pmt Rate : F) (periods : list Z) (st : columns * F)
  : columns * F :=
  match periods with
  | [] => st
  | i :: periods' =>
      let st' := period_body Pmt Rate i st in
      if fleb (snd st') (lit 0) then st' else period_loop Pmt Rate periods' st'
  end.

(** The data frame of a plan: six columns of one length. *)
Record DataFrame : Type := {
  Period : list Z;
  Beginning_Balance : list F;
  Payment : list F;
  Interest_Paid : list F;
  Principal_Paid : list F;
  Ending_Balance : list F
}.

(** The part of the outer loop's body that builds the frame of one plan. *)
Definition plan_frame (self : MortgagePaymentCalculator)
    (Pmt : F) (Term_Periods : Z) (Rate : F) : DataFrame :=
  let current_balance := principal self in
  let '(cols, _) :=
    period_loop Pmt Rate (range 1 (Term_Periods + 1)) (no_columns, current_balance) in
  {| Period := period cols;
     Beginning_Balance := beginning_balance cols;
     Payment := repeat (round2 Pmt) (List.length (period cols));
     Interest_Paid := interest cols;
     Principal_Paid := principal_paid cols;
     Ending_Balance := ending_balance cols |}.

(** ** [generate_schedule] *)

Definition payment_names : list string :=
  ["Monthly"; "Semi-Monthly"; "Bi-Weekly"; "Weekly"; "Rapid Bi-Weekly"; "Rapid Weekly"].

Definition frequencies : dict Z :=
  [("Monthly", 12); ("Semi-Monthly", 24); ("Bi-Weekly", 26);
   ("Weekly", 52); ("Rapid Bi-Weekly", 26); ("Rapid Weekly", 52)]%Z.

Definition rates (self : MortgagePaymentCalculator) : dict F :=
  [("Monthly", monthlyinterestrate self);
   ("Semi-Monthly", semimonthlyinterestrate self);
   ("Bi-Weekly", biweeklyinterestrate self);
   ("Weekly", weeklyinterestrate self);
   ("Rapid Bi-Weekly", biweeklyinterestrate self);
   ("Rapid Weekly", weeklyinterestrate self)].

(** [dict(zip(payment_names, payments))] *)
Definition payment_info (p : payments) : dict F :=
  combine payment_names
    [MonthlyPayment p; SemiMonthlyPayment p; BiweeklyPayment p;
     WeeklyPayment p; RapidBiweeklyPayment p; RapidWeeklyPayment p].

(** [for name, freq in frequencies.items(): total_term_payments[name] = self.term * freq] *)
Definition total_term_payments (self : MortgagePaymentCalculator) : dict Z :=
  fold_left (fun d '(name, freq) => dict_set d name (term self * freq)%Z)
    frequencies [].

(** [for name in payment_names: ...; schedules[name] = df] *)
Fixpoint schedule_loop (self : MortgagePaymentCalculator) (p : payments)
    (names : list string) (schedules : dict DataFrame) : result (dict DataFrame) :=
  match names with
  | [] => Ok schedules
  | name :: names' =>
      Pmt <- dict_get (payment_info p) name ;;
      Term_Periods <- dict_get (total_term_payments self) name ;;
      Rate <- dict_get (rates self) name ;;
      let df := plan_frame self Pmt Term_Periods Rate in
      schedule_loop self p names' (dict_set schedules name df)
  end.

Definition generate_schedule (self : MortgagePaymentCalculator)
  : result (dict DataFrame) :=
  p <- calculatepayments self ;;
  schedule_loop self p payment_names [].

(** ** Rows *)

(** A row of a frame. *)
Record row : Type := {
  row_Period : Z;
  row_Beginning_Balance : F;
  row_Payment : F;
  row_Interest_Paid : F;
  row_Principal_Paid : F;
  row_Ending_Balance : F
}.

Fixpoint zip_rows (ps : list Z) (bs pays ints pps es : list F) : list row :=
  match ps, bs, pays, ints, pps, es with
  | p :: ps', b :: bs', pay :: pays', i :: ints', pp :: pps', e :: es' =>
      {| row_Period := p; row_Beginning_Balance := b; row_Payment := pay;
         row_Interest_Paid := i; row_Principal_Paid := pp;
         row_Ending_Balance := e |} :: zip_rows ps' bs' pays' ints' pps' es'
  | _, _, _, _, _, _ => []
  end.

(** The rows of a frame, first period first. *)
Definition rows (df : DataFrame) : list row :=
  zip_rows (Period df) (Beginning_Balance df) (Payment df)
           (Interest_Paid df) (Principal_Paid df) (Ending_Balance df).

(** The row of period [i] entered with balance [current_balance]. *)
Definition period_row (Pmt Rate : F) (i : Z) (current_balance : F) : row :=
  let I_Pmt := round2 (current_balance .* Rate) in
  let Principal_Pmt := round2 (Pmt .- I_Pmt) in
  let clamped := fltb (current_balance .- Principal_Pmt) (lit 0) in
  {| row_Period := i;
     row_Beginning_Balance := round2 current_balance;
     row_Payment := round2 Pmt;
     row_Interest_Paid := I_Pmt;
     row_Principal_Paid := if clamped then current_balance else Principal_Pmt;
     row_Ending_Balance :=
       if clamped then lit 0 else round2 (current_balance .- Principal_Pmt) |}.

(** The rows the loop produces, one period at a time. *)
Fixpoint simulate (Pmt Rate : F) (periods : list Z) (current_balance : F)
  : list row :=
  match periods with
  | [] => []
  | i :: periods' =>
      let r := period_row Pmt Rate i current_balance in
      r :: (if fleb (row_Ending_Balance r) (lit 0) then []
            else simulate Pmt Rate periods' (row_Ending_Balance r))
  end.

End Calculator.

Arguments MortgagePaymentCalculator F : clear implicits.
Arguments payments F : clear implicits.
Arguments columns F : clear implicits.
Arguments DataFrame F : clear implicits.
Arguments row F : clear implicits.

(** ** Exact arithmetic *)

(** The integer nearest to [q], a tie going to the even one ([rint]). *)
Definition round_half_even (q : Q) : Z :=
  let f := Qfloor q in
  match (q - inject_Z f ?= 1 # 2)%Q with
  | Lt => f
  | Gt => (f + 1)%Z
  | Eq => if Z.even f then f else (f + 1)%Z
  end.

(** [np.round(x, 2)] on an exact number. *)
Definition Qround2 (x : Q) : Q :=
  (inject_Z (round_half_even (x * 100)) / 100)%Q.

(** [x ** y]: Python answers [1.0] itself when the exponent is zero or the
    base is one; [pw] stands for the platform's power everywhere else, with its
    exceptions. *)
Class PlatformPow : Type := platform_pow : Q -> Q -> result Q.

Definition Qpow {pw : PlatformPow} (x y : Q) : result Q :=
  if Qeq_bool y 0 then Ok 1%Q
  else if Qeq_bool x 1 then Ok 1%Q
  else platform_pow x y.

#[export] Instance exact {pw : PlatformPow} : Arith Q := {
  lit := inject_Z;
  of_Z_overflows := fun _ => false;
  fadd := Qplus;
  fsub := Qminus;
  fmul := Qmult;
  fdiv := Qdiv;
  feqb := Qeq_bool;
  fltb := fun x y => negb (Qle_bool y x);
  fleb := Qle_bool;
  fpow := Qpow;
  round2 := Qround2
}.

(** ** Binary64 arithmetic *)

(** The double nearest to an int. *)
Definition b64_of_Z (z : Z) : float :=
  SF2Prim (binary_normalize prec emax z 0 false).

Definition two52 : float := 4503599627370496%float.

(** [copysign(x, y)]: the magnitude of [x] with the sign of [y]. *)
Definition copysign (x y : float) : float :=
  if get_sign y then (- abs x)%float else abs x.

(** [rint]: the integer nearest to [x], a tie going to the even one, with the
    sign of [x].  Below [2^52] in magnitude the sum [|x| + 2^52] is rounded to
    an integer by the addition itself; from [2^52] on every double is an
    integer. *)
Definition rint (x : float) : float :=
  if (abs x <? two52)%float then copysign (abs x + two52 - two52) x else x.

(** [np.round(x, 2)] on a double. *)
Definition b64_round2 (x : float) : float := (rint (x * 100) / 100)%float.

(** A double that is not below zero: a zero of either sign, a positive number,
    [+inf] or a NaN. *)
Definition not_negative (s : spec_float) : Prop :=
  match s with
  | S754_infinity true | S754_finite true _ _ => False
  | _ => True
  end.

(** Whether a double is an integer, and an odd one. *)
Definition float_is_integer (x : float) : bool :=
  match Prim2SF x with
  | S754_zero _ => true
  | S754_finite _ m e => (0 <=? e)%Z || (Z.pos m mod 2 ^ (- e) =? 0)%Z
  | _ => false
  end.

Definition float_is_odd_integer (x : float) : bool :=
  match Prim2SF x with
  | S754_finite _ m e =>
      if (0 <? e)%Z then false
      else (Z.pos m mod 2 ^ (- e) =? 0)%Z && Z.odd (Z.pos m / 2 ^ (- e))
  | _ => false
  end.

(** The platform's [pow] as [float ** float] finishes it: the value, or the
    exception raised from [errno]. *)
Class Libm : Type := libm_pow : float -> float -> result float.

(** [float ** float]: the special cases Python settles itself, then the
    platform's [pow] on a finite positive base other than one and a finite
    non-zero exponent. *)
Definition float_pow {L : Libm} (iv iw : float) : result float :=
  if (iw =? 0)%float then Ok 1%float
  else if is_nan iv then Ok iv
  else if is_nan iw then Ok (if (iv =? 1)%float then 1%float else iw)
  else if is_infinity iw then
    if (abs iv =? 1)%float then Ok 1%float
    else if Bool.eqb (0 <? iw)%float (1 <? abs iv)%float then Ok (abs iw)
    else Ok 0%float
  else if is_infinity iv then
    let iw_is_odd := float_is_odd_integer iw in
    if (0 <? iw)%float then Ok (if iw_is_odd then iv else abs iv)
    else Ok (if iw_is_odd && (iv <? 0)%float then (-0)%float else 0%float)
  else if (iv =? 0)%float then
    if (iw <? 0)%float then Raise ZeroDivisionError
    else Ok (if float_is_odd_integer iw then iv else 0%float)
  else if (iv <? 0)%float && negb (float_is_integer iw) then Raise ComplexPower
  else
    let negate_result := (iv <? 0)%float && float_is_odd_integer iw in
    if (abs iv =? 1)%float then Ok (if negate_result then (-1)%float else 1%float)
    else
      ix <- libm_pow (abs iv) iw ;;
      Ok (if negate_result then (- ix)%float else ix).

#[export] Instance binary64 {L : Libm} : Arith float := {
  lit := b64_of_Z;
  of_Z_overflows := fun z => is_infinity (b64_of_Z z);
  fadd := PrimFloat.add;
  fsub := PrimFloat.sub;
  fmul := PrimFloat.mul;
  fdiv := PrimFloat.div;
  feqb := PrimFloat.eqb;
  fltb := PrimFloat.ltb;
  fleb := PrimFloat.leb;
  fpow := float_pow;
  round2 := b64_round2
}.

(** ** Schedules, as the claims speak of them *)

Section Schedules.

Context {F : Type} {A : Arith F}.

(** [df] is the frame [generate_schedule] returns for the plan [name]. *)
Definition schedule_of (self : MortgagePaymentCalculator F) (name : string)
    (df : DataFrame F) : Prop :=
  exists schedules,
    generate_schedule self = Ok schedules /\ dict_get schedules name = Ok df.

(** The balance a period starts from: the opening balance [b0] (the
    principal) for the first row, the ending balance of the row before for the
    others. *)
Definition balance_before (b0 : F) (rs : list (row F)) (k : nat) : F :=
  match k with
  | O => b0
  | S j => match nth_error rs j with
           | Some r => row_Ending_Balance r
           | None => b0
           end
  end.

(** The payment, the frequency and the rate [generate_schedule] looks up for
    the plan [name]. *)
Definition plan_of (self : MortgagePaymentCalculator F) (p : payments F)
    (name : string) (Pmt : F) (freq : Z) (Rate : F) : Prop :=
  dict_get (payment_info p) name = Ok Pmt /\
  dict_get frequencies name = Ok freq /\
  dict_get (rates self) name = Ok Rate.

(** The rows of the lists the loop has built so far, were they framed with
    the payment [pay]. *)
Definition cols_rows (pay : F) (cols : columns F) : list (row F) :=
  zip_rows (period cols) (beginning_balance cols)
           (repeat pay (List.length (period cols)))
           (interest cols) (principal_paid cols) (ending_balance cols).

(** The five lists have one length. *)
Definition aligned (cols : columns F) : Prop :=
  List.length (beginning_balance cols) = List.length (period cols) /\
  List.length (interest cols) = List.length (period cols) /\
  List.length (principal_paid cols) = List.length (period cols) /\
  List.length (ending_balance cols) = List.length (period cols).

(** The annuity formula as the specification words it:
    [payment = r == 0 ? principal/n : principal * r*(1+r)^n / ((1+r)^n - 1)],
    the product [principal * (r * (1+r)^n)] being formed before the division
    as the code does. *)
Definition annuity_payment (P r n : F) : result F :=
  if feqb r (lit 0) then truediv P n
  else
    X <- (lit 1 .+ r) ** n ;;
    truediv (P .* (r .* X)) (X .- lit 1).

(** The calculator with another term. *)
Definition with_term (self : MortgagePaymentCalculator F) (t : Z)
  : MortgagePaymentCalculator F :=
  {| principal := principal self;
     interestrate := interestrate self;
     amortization_period := amortization_period self;
     term := t;
     monthlyinterestrate := monthlyinterestrate self;
     semimonthlyinterestrate := semimonthlyinterestrate self;
     biweeklyinterestrate := biweeklyinterestrate self;
     weeklyinterestrate := weeklyinterestrate self |}.

(** The pipeline of [main]: construct the object, size the payments, build
    the schedules. *)
Definition pipeline (principal_ interestrate_ : F)
    (amortization_period_ term_ : Z)
  : result (payments F * dict (DataFrame F)) :=
  self <- init principal_ interestrate_ amortization_period_ term_ ;;
  p <- calculatepayments self ;;
  d <- generate_schedule self ;;
  Ok (p, d).

End Schedules.

(** ** [main] *)

Section Main.

Context {F : Type} {A : Arith F}.

(** A line of the chart, as [main] hands it to [plt.plot]: the columns
    [df['Period']] and [df['Ending Balance']], and the two parts of the label
    [f'{name} ({df.iloc[-1]["Period"]} payments)']. *)
Record line : Type := {
  line_x : list Z;
  line_y : list F;
  label_name : string;
  label_payments : F
}.

(** [df.iloc[-1]["Period"]]: the last row of the frame, at the key "Period".
    The row is a Series of floats, the int of the Period column cast with the
    rest; [None] is the [IndexError] of an empty frame. *)
Definition iloc_last_Period (df : DataFrame F) : option F :=
  match rev (Period df) with
  | [] => None
  | p :: _ => Some (lit p)
  end.

(** [for name, df in loan_schedules.items(): plt.plot(...)]: the lines, or
    [None] when a label raises [IndexError]. *)
Fixpoint plot_lines (items : dict (DataFrame F)) : option (list line) :=
  match items with
  | [] => Some []
  | (name, df) :: items' =>
      match iloc_last_Period df with
      | None => None
      | Some n =>
          match plot_lines items' with
          | None => None
          | Some lines =>
              Some ({| line_x := Period df; line_y := Ending_Balance df;
                       label_name := name; label_payments := n |} :: lines)
          end
      end
  end.

(** How [main] ends. *)
Inductive main_end : Type :=
| invalid_input
    (* a reply that [float] or [int] rejects: the [ValueError] is caught, a
       message printed, nothing computed *)
| raised (e : exn)
    (* the constructor or [generate_schedule] raised (or a power left the
       floats, which the embedding does not follow): nothing is written *)
| raised_IndexError (sheets : dict (DataFrame F))
    (* the workbook is saved, one sheet per plan; a label of the chart raised
       and no chart is saved *)
| saved (sheets : dict (DataFrame F)) (lines : list line).
    (* the workbook and the chart are saved *)

(** [main()], from the four replies as [float] and [int] read them ([None]
    for a reply they reject with [ValueError]).  The sheets of the workbook
    are the items of [loan_schedules], written by [df.to_excel] under the plan
    names; the chart is saved after the six lines are drawn.  The messages
    printed and the styling of the sheets and of the figure are left out. *)
Definition main (principal_ interestrate_ : option F)
    (amortization_period_ term_ : option Z) : main_end :=
  match principal_, interestrate_, amortization_period_, term_ with
  | Some principal_, Some interestrate_, Some amortization_period_, Some term_ =>
      match init principal_ interestrate_ amortization_period_ term_ with
      | Raise e => raised e
      | Ok mortgage_calc =>
          match generate_schedule mortgage_calc with
          | Raise e => raised e
          | Ok loan_schedules =>
              match plot_lines loan_schedules with
              | None => raised_IndexError loan_schedules
              | Some lines => saved loan_schedules lines
              end
          end
      end
  | _, _, _, _ => invalid_input
  end.

(** What a line of the chart shows of a sheet: the plan's name, the two
    columns, and the number of rows of the schedule. *)
Definition line_of (item : string * DataFrame F) (ln : line) : Prop :=
  label_name ln = fst item /\
  line_x ln = Period (snd item) /\
  line_y ln = Ending_Balance (snd item) /\
  label_payments ln = lit (Z.of_nat (List.length (rows (snd item)))).

End Main.

Arguments line F : clear implicits.
Arguments main_end F : clear implicits.

(** ** The object and its methods *)

Section Object.

Context {F : Type}.

(** The attributes of [self]: an attribute is absent until it is assigned. *)
Record object : Type := {
  attr_principal : option F;
  attr_interestrate : option F;
  attr_amortization_period : option Z;
  attr_term : option Z;
  attr_monthlyinterestrate : option F;
  attr_semimonthlyinterestrate : option F;
  attr_biweeklyinterestrate : option F;
  attr_weeklyinterestrate : option F
}.

(** The object before [__init__] has run. *)
Definition new_object : object :=
  {| attr_principal := None; attr_interestrate := None;
     attr_amortization_period := None; attr_term := None;
     attr_monthlyinterestrate := None; attr_semimonthlyinterestrate := None;
     attr_biweeklyinterestrate := None; attr_weeklyinterestrate := None |}.

(** What ends a method early. *)
Inductive error : Type :=
| Error (e : exn)
| AttributeError.   (* an attribute read before it is assigned *)

(** A method body: from the object as it finds it to what it returns or
    raises and the object as it leaves it. *)
Definition method (X : Type) : Type := object -> (X + error) * object.

Definition ret {X : Type} (x : X) : method X := fun self => (inl x, self).

Definition throw {X : Type} (e : error) : method X := fun self => (inr e, self).

Definition then_ {X Y : Type} (m : method X) (k : X -> method Y) : method Y :=
  fun self =>
    match m self with
    | (inl x, self') => k x self'
    | (inr e, self') => (inr e, self')
    end.

(** An expression that reads no attribute. *)
Definition eval {X : Type} (r : result X) : method X :=
  match r with
  | Ok x => ret x
  | Raise e => throw (Error e)
  end.

(** [self.attribute] *)
Definition getattr {X : Type} (attribute : object -> option X) : method X :=
  fun self =>
    match attribute self with
    | Some x => (inl x, self)
    | None => (inr AttributeError, self)
    end.

(** [self.attribute = x], one definition per attribute. *)

Definition set_principal (x : F) : method unit :=
  fun self =>
    (inl tt,
     {| attr_principal := Some x;
        attr_interestrate := attr_interestrate self;
        attr_amortization_period := attr_amortization_period self;
        attr_term := attr_term self;
        attr_monthlyinterestrate := attr_monthlyinterestrate self;
        attr_semimonthlyinterestrate := attr_semimonthlyinterestrate self;
        attr_biweeklyinterestrate := attr_biweeklyinterestrate self;
        attr_weeklyinterestrate := attr_weeklyinterestrate self |}).

Definition set_interestrate (x : F) : method unit :=
  fun self =>
    (inl tt,
     {| attr_principal := attr_principal self;
        attr_interestrate := Some x;
        attr_amortization_period := attr_amortization_period self;
        attr_term := attr_term self;
        attr_monthlyinterestrate := attr_monthlyinterestrate self;
        attr_semimonthlyinterestrate := attr_semimonthlyinterestrate self;
        attr_biweeklyinterestrate := attr_biweeklyinterestrate self;
        attr_weeklyinterestrate := attr_weeklyinterestrate self |}).

Definition set_amortization_period (x : Z) : method unit :=
  fun self =>
    (inl tt,
     {| attr_principal := attr_principal self;
        attr_interestrate := attr_interestrate self;
        attr_amortization_period := Some x;
        attr_term := attr_term self;
        attr_monthlyinterestrate := attr_monthlyinterestrate self;
        attr_semimonthlyinterestrate := attr_semimonthlyinterestrate self;
        attr_biweeklyinterestrate := attr_biweeklyinterestrate self;
        attr_weeklyinterestrate := attr_weeklyinterestrate self |}).

Definition set_term (x : Z) : method unit :=
  fun self =>
    (inl tt,
     {| attr_principal := attr_principal self;
        attr_interestrate := attr_interestrate self;
        attr_amortization_period := attr_amortization_period self;
        attr_term := Some x;
        attr_monthlyinterestrate := attr_monthlyinterestrate self;
        attr_semimonthlyinterestrate := attr_semimonthlyinterestrate self;
        attr_biweeklyinterestrate := attr_biweeklyinterestrate self;
        attr_weeklyinterestrate := attr_weeklyinterestrate self |}).

Definition set_monthlyinterestrate (x : F) : method unit :=
  fun self =>
    (inl tt,
     {| attr_principal := attr_principal self;
        attr_interestrate := attr_interestrate self;
        attr_amortization_period := attr_amortization_period self;
        attr_term := attr_term self;
        attr_monthlyinterestrate := Some x;
        attr_semimonthlyinterestrate := attr_semimonthlyinterestrate self;
        attr_biweeklyinterestrate := attr_biweeklyinterestrate self;
        attr_weeklyinterestrate := attr_weeklyinterestrate self |}).

Definition set_semimonthlyinterestrate (x : F) : method unit :=
  fun self =>
    (inl tt,
     {| attr_principal := attr_principal self;
        attr_interestrate := attr_interestrate self;
        attr_amortization_period := attr_amortization_period self;
        attr_term := attr_term self;
        attr_monthlyinterestrate := attr_monthlyinterestrate self;
        attr_semimonthlyinterestrate := Some x;
        attr_biweeklyinterestrate := attr_biweeklyinterestrate self;
        attr_weeklyinterestrate := attr_weeklyinterestrate self |}).

Definition set_biweeklyinterestrate (x : F) : method unit :=
  fun self =>
    (inl tt,
     {| attr_principal := attr_principal self;
        attr_interestrate := attr_interestrate self;
        attr_amortization_period := attr_amortization_period self;
        attr_term := attr_term self;
        attr_monthlyinterestrate := attr_monthlyinterestrate self;
        attr_semimonthlyinterestrate := attr_semimonthlyinterestrate self;
        attr_biweeklyinterestrate := Some x;
        attr_weeklyinterestrate := attr_weeklyinterestrate self |}).

Definition set_weeklyinterestrate (x : F) : method unit :=
  fun self =>
    (inl tt,
     {| attr_principal := attr_principal self;
        attr_interestrate := attr_interestrate self;
        attr_amortization_period := attr_amortization_period self;
        attr_term := attr_term self;
        attr_monthlyinterestrate := attr_monthlyinterestrate self;
        attr_semimonthlyinterestrate := attr_semimonthlyinterestrate self;
        attr_biweeklyinterestrate := attr_biweeklyinterestrate self;
        attr_weeklyinterestrate := Some x |}).

End Object.

Arguments object F : clear implicits.
Arguments method F X : clear implicits.

Declare Scope method_scope.
Delimit Scope method_scope with method.
Notation "x <~ m ;; k" := (then_ m (fun x => k))
  (at level 100, m at next level, right associativity) : method_scope.
Notation "m ;;; k" := (then_ m (fun _ => k))
  (at level 100, right associativity) : method_scope.

Section Methods.

Context {F : Type} {A : Arith F}.

Local Open Scope method_scope.

(** [__init__(self, principal, interestrate, amortization_period, term)],
    assignment by assignment; the four rates are computed from
    [self.interestrate], read back from the object. *)
Definition method_init (principal_ interestrate_ : F)
    (amortization_period_ term_ : Z) : method F unit :=
  set_principal principal_ ;;;
  set_interestrate (interestrate_ ./ lit 100) ;;;
  set_amortization_period amortization_period_ ;;;
  set_term term_ ;;;
  r <~ getattr attr_interestrate ;;
  m <~ eval ((lit 1 .+ r ./ lit 2) ** (lit 2 ./ lit 12)) ;;
  set_monthlyinterestrate (m .- lit 1) ;;;
  r <~ getattr attr_interestrate ;;
  s <~ eval ((lit 1 .+ r ./ lit 2) ** (lit 2 ./ lit 24)) ;;
  set_semimonthlyinterestrate (s .- lit 1) ;;;
  r <~ getattr attr_interestrate ;;
  b <~ eval ((lit 1 .+ r ./ lit 2) ** (lit 2 ./ lit 26)) ;;
  set_biweeklyinterestrate (b .- lit 1) ;;;
  r <~ getattr attr_interestrate ;;
  w <~ eval ((lit 1 .+ r ./ lit 2) ** (lit 2 ./ lit 52)) ;;
  set_weeklyinterestrate (w .- lit 1).

(** The inner function of [calculatepayments], which reads
    [self.principal].  [periods] is the count as the caller hands it over: an
    int, made a float where the first operation needs one, or a float
    already. *)
Definition method_calculate_payment (periodic_rate : F) (periods : result F)
  : method F F :=
  if feqb periodic_rate (lit 0) then
    P <~ getattr attr_principal ;;
    n <~ eval periods ;;
    eval (truediv P n)
  else
    P <~ getattr attr_principal ;;
    n <~ eval periods ;;
    x <~ eval ((lit 1 .+ periodic_rate) ** n) ;;
    y <~ eval ((lit 1 .+ periodic_rate) ** n) ;;
    eval (truediv (P .* (periodic_rate .* x)) (y .- lit 1)).

(** [calculatepayments(self)] *)
Definition method_calculatepayments : method F (payments F) :=
  a <~ getattr attr_amortization_period ;;
  let n_months := (a * 12)%Z in
  r1 <~ getattr attr_monthlyinterestrate ;;
  Monthly <~ method_calculate_payment r1 (float_of_int n_months) ;;
  r2 <~ getattr attr_semimonthlyinterestrate ;;
  SemiMonthly <~ method_calculate_payment r2 (float_of_int (n_months * 2)%Z) ;;
  r3 <~ getattr attr_biweeklyinterestrate ;;
  n3 <~ eval (float_of_int n_months) ;;
  Biweekly <~ method_calculate_payment r3 (Ok (n3 .* (lit 26 ./ lit 12))) ;;
  r4 <~ getattr attr_weeklyinterestrate ;;
  n4 <~ eval (float_of_int n_months) ;;
  Weekly <~ method_calculate_payment r4 (Ok (n4 .* (lit 52 ./ lit 12))) ;;
  ret {| MonthlyPayment := Monthly;
         SemiMonthlyPayment := SemiMonthly;
         BiweeklyPayment := Biweekly;
         WeeklyPayment := Weekly;
         RapidBiweeklyPayment := Monthly ./ lit 2;
         RapidWeeklyPayment := Monthly ./ lit 4 |}.

(** The frame of one plan, from the balance the loop starts with. *)
Definition frame_from (current_balance Pmt : F) (Term_Periods : Z) (Rate : F)
  : DataFrame F :=
  let '(cols, _) :=
    period_loop Pmt Rate (range 1 (Term_Periods + 1)) (no_columns, current_balance) in
  {| Period := period cols;
     Beginning_Balance := beginning_balance cols;
     Payment := repeat (round2 Pmt) (List.length (period cols));
     Interest_Paid := interest cols;
     Principal_Paid := principal_paid cols;
     Ending_Balance := ending_balance cols |}.

(** [rates = {'Monthly': self.monthlyinterestrate, ...}] *)
Definition method_rates : method F (dict F) :=
  m <~ getattr attr_monthlyinterestrate ;;
  s <~ getattr attr_semimonthlyinterestrate ;;
  b <~ getattr attr_biweeklyinterestrate ;;
  w <~ getattr attr_weeklyinterestrate ;;
  b' <~ getattr attr_biweeklyinterestrate ;;
  w' <~ getattr attr_weeklyinterestrate ;;
  ret [("Monthly", m); ("Semi-Monthly", s); ("Bi-Weekly", b); ("Weekly", w);
       ("Rapid Bi-Weekly", b'); ("Rapid Weekly", w')].

(** [for name, freq in frequencies.items():
       total_term_payments[name] = self.term * freq] *)
Fixpoint method_total_term_payments (items : dict Z) (d : dict Z)
  : method F (dict Z) :=
  match items with
  | [] => ret d
  | (name, freq) :: items' =>
      t <~ getattr attr_term ;;
      method_total_term_payments items' (dict_set d name (t * freq)%Z)
  end.

(** [for name in payment_names: ...; schedules[name] = df] *)
Fixpoint method_schedule_loop (p : payments F) (total_term_payments_ : dict Z)
    (rates_ : dict F) (names : list string) (schedules : dict (DataFrame F))
  : method F (dict (DataFrame F)) :=
  match names with
  | [] => ret schedules
  | name :: names' =>
      Pmt <~ eval (dict_get (payment_info p) name) ;;
      Term_Periods <~ eval (dict_get total_term_payments_ name) ;;
      Rate <~ eval (dict_get rates_ name) ;;
      current_balance <~ getattr attr_principal ;;
      let df := frame_from current_balance Pmt Term_Periods Rate in
      method_schedule_loop p total_term_payments_ rates_ names'
        (dict_set schedules name df)
  end.

(** [generate_schedule(self)] *)
Definition method_generate_schedule : method F (dict (DataFrame F)) :=
  p <~ method_calculatepayments ;;
  rates_ <~ method_rates ;;
  total_term_payments_ <~ method_total_term_payments frequencies [] ;;
  method_schedule_loop p total_term_payments_ rates_ payment_names [].

(** The pipeline of [main] on an object: construct, size the payments, build
    the schedules. *)
Definition method_pipeline (principal_ interestrate_ : F)
    (amortization_period_ term_ : Z)
  : method F (payments F * dict (DataFrame F)) :=
  method_init principal_ interestrate_ amortization_period_ term_ ;;;
  p <~ method_calculatepayments ;;
  d <~ method_generate_schedule ;;
  ret (p, d).

(** The object [__init__] leaves, all attributes assigned. *)
Definition object_of (self : MortgagePaymentCalculator F) : object F :=
  {| attr_principal := Some (principal self);
     attr_interestrate := Some (interestrate self);
     attr_amortization_period := Some (amortization_period self);
     attr_term := Some (term self);
     attr_monthlyinterestrate := Some (monthlyinterestrate self);
     attr_semimonthlyinterestrate := Some (semimonthlyinterestrate self);
     attr_biweeklyinterestrate := Some (biweeklyinterestrate self);
     attr_weeklyinterestrate := Some (weeklyinterestrate self) |}.

(** What a computation without attributes returns or raises, as a method
    reports it. *)
Definition reported {X : Type} (r : result X) : X + error :=
  match r with
  | Ok x => inl x
  | Raise e => inr (Error e)
  end.

End Methods.

(** ** Concrete loans *)

(** A platform power that is never consulted: the loans below have a zero
    rate, where the power is taken of the base one, which Python answers
    itself. *)
Definition unused_pow : PlatformPow := fun _ _ => Raise OverflowError.
Definition unused_libm : Libm := fun _ _ => Raise OverflowError.

(** A loan of 1 at a zero rate, amortized over one year, run for two: the
    object [__init__] builds, the payments, and the monthly frame. *)
Definition small_loan : MortgagePaymentCalculator Q :=
  {| principal := 1%Q; interestrate := (0 # 100)%Q; amortization_period := 1;
     term := 2; monthlyinterestrate := 0%Q; semimonthlyinterestrate := 0%Q;
     biweeklyinterestrate := 0%Q; weeklyinterestrate := 0%Q |}.

Definition small_payments : payments Q :=
  {| MonthlyPayment := (1 # 12)%Q; SemiMonthlyPayment := (1 # 24)%Q;
     BiweeklyPayment := (12 # 312)%Q; WeeklyPayment := (12 # 624)%Q;
     RapidBiweeklyPayment := (1 # 24)%Q; RapidWeeklyPayment := (1 # 48)%Q |}.

Definition small_monthly : DataFrame Q :=
  plan_frame (A := exact (pw := unused_pow)) small_loan (1 # 12)%Q (2 * 12) 0%Q.

(** The same loan on doubles: the object, the payments, and the monthly
    frame. *)
Definition small_loan_b64 : MortgagePaymentCalculator float :=
  {| principal := 1%float; interestrate := 0%float; amortization_period := 1;
     term := 2; monthlyinterestrate := 0%float;
     semimonthlyinterestrate := 0%float; biweeklyinterestrate := 0%float;
     weeklyinterestrate := 0%float |}.

Definition small_payments_b64 : payments float :=
  {| MonthlyPayment := (1 / 12)%float;
     SemiMonthlyPayment := (1 / 24)%float;
     BiweeklyPayment := (1 / (12 * (26 / 12)))%float;
     WeeklyPayment := (1 / (12 * (52 / 12)))%float;
     RapidBiweeklyPayment := (1 / 12 / 2)%float;
     RapidWeeklyPayment := (1 / 12 / 4)%float |}.

Definition small_monthly_b64 : DataFrame float :=
  plan_frame (A := binary64 (L := unused_libm)) small_loan_b64
    (1 / 12)%float (2 * 12) 0%float.

(** A platform power that computes: the power of a positive base to the
    exponent [p/q] is the [p]-th power of the [q]-th root, the root by
    Newton's iteration from 1, every product cut to 40 decimals. *)
Definition cut40 (x : Q) : Q :=
  (Qfloor (x * inject_Z (10 ^ 40)) # 10 ^ 40)%Q.

Fixpoint power_pos (x : Q) (p : positive) : Q :=
  match p with
  | xH => x
  | xO p' => let y := power_pos x p' in cut40 (y * y)
  | xI p' => let y := power_pos x p' in cut40 (cut40 (y * y) * x)
  end.

Definition power_Z (x : Q) (p : Z) : Q :=
  match p with
  | Z0 => 1%Q
  | Zpos p => power_pos x p
  | Zneg p => cut40 (1 / power_pos x p)
  end.

Fixpoint newton_root (q : positive) (x : Q) (steps : nat) (r : Q) : Q :=
  match steps with
  | O => r
  | S steps' =>
      newton_root q x steps'
        (cut40 ((inject_Z (Zpos q - 1) * r + x / power_Z r (Zpos q - 1))
                / inject_Z (Zpos q)))
  end.

Definition newton_pow : PlatformPow := fun x y =>
  let y' := Qred y in
  let p := Qnum y' in
  let q := Qden y' in
  if Qle_bool x 0 then
    if Qeq_bool x 0 then
      if Qle_bool y 0 then Raise ZeroDivisionError else Ok 0%Q
    else if Pos.eqb q 1 then Ok (power_Z x p) else Raise ComplexPower
  else
    let root := if Pos.eqb q 1 then x else newton_root q x 12 1%Q in
    Ok (power_Z root p).

(** The loan of the specification's scenario: 100000 at 5 percent, amortized
    over 25 years, run for 5: the object [__init__] builds with [newton_pow],
    its payments, and its monthly frame. *)
Definition scenario_loan : MortgagePaymentCalculator Q :=
  Eval vm_compute in
    match init (A := exact (pw := newton_pow)) 100000%Q 5%Q 25 5 with
    | Ok self => self
    | Raise _ => small_loan
    end.

Definition scenario_payments : payments Q :=
  Eval vm_compute in
    match calculatepayments (A := exact (pw := newton_pow)) scenario_loan with
    | Ok p => p
    | Raise _ => small_payments
    end.

Definition scenario_monthly : DataFrame Q :=
  plan_frame (A := exact (pw := newton_pow)) scenario_loan
    (MonthlyPayment scenario_payments) (5 * 12) (monthlyinterestrate scenario_loan).

(** * Properties *)

Section Generic.

Context {F : Type} {A : Arith F}.

Lemma bind_Ok {X Y : Type} (m : result X) (k : X -> result Y) (y : Y) :
  bind m k = Ok y -> exists x, m = Ok x /\ k x = Ok y.
Proof.
  destruct m as [x|e]; simpl; intros H; [eauto | discriminate].
Qed.

(** *** The frame of a plan is the row-wise simulation *)

Lemma zip_rows_snoc (pay : F) :
  forall (ps : list Z) (bs ints pps es : list F) p b i pp e,
    List.length bs = List.length ps ->
    List.length ints = List.length ps ->
    List.length pps = List.length ps ->
    List.length es = List.length ps ->
    zip_rows (ps ++ [p]) (bs ++ [b]) (repeat pay (List.length (ps ++ [p])))
             (ints ++ [i]) (pps ++ [pp]) (es ++ [e])
    = zip_rows ps bs (repeat pay (List.length ps)) ints pps es
      ++ [ {| row_Period := p; row_Beginning_Balance := b; row_Payment := pay;
              row_Interest_Paid := i; row_Principal_Paid := pp;
              row_Ending_Balance := e |} ].
Proof.
  induction ps as [|p0 ps IH]; intros bs ints pps es p b i pp e Hb Hi Hp He.
  - destruct bs, ints, pps, es; try discriminate. reflexivity.
  - destruct bs as [|b0 bs], ints as [|i0 ints], pps as [|pp0 pps], es as [|e0 es];
      try discriminate.
    simpl in Hb, Hi, Hp, He. simpl. f_equal.
    apply IH; congruence.
Qed.

Lemma period_body_rows (Pmt Rate : F) (i : Z) (cols : columns F) (b : F) :
  aligned cols ->
  let st' := period_body Pmt Rate i (cols, b) in
  aligned (fst st') /\
  snd st' = row_Ending_Balance (period_row Pmt Rate i b) /\
  cols_rows (round2 Pmt) (fst st')
  = cols_rows (round2 Pmt) cols ++ [period_row Pmt Rate i b].
Proof.
  intros (Hb & Hi & Hp & He). unfold period_body, period_row.
  destruct (fltb (b .- round2 (Pmt .- round2 (b .* Rate))) (lit 0)); simpl;
    (split; [unfold aligned; simpl; rewrite !length_app; simpl; repeat split; lia|]);
    (split; [reflexivity|]);
    unfold cols_rows; simpl; apply zip_rows_snoc; assumption.
Qed.

Lemma period_loop_rows (Pmt Rate : F) :
  forall (periods : list Z) (cols : columns F) (b : F),
    aligned cols ->
    cols_rows (round2 Pmt) (fst (period_loop Pmt Rate periods (cols, b)))
    = cols_rows (round2 Pmt) cols ++ simulate Pmt Rate periods b.
Proof.
  induction periods as [|i periods IH]; intros cols b Hal.
  - simpl. now rewrite app_nil_r.
  - cbn [period_loop simulate].
    destruct (period_body_rows Pmt Rate i b Hal) as (Hal' & Hsnd & Hrows).
    rewrite Hsnd.
    destruct (fleb (row_Ending_Balance (period_row Pmt Rate i b)) (lit 0)).
    + exact Hrows.
    + destruct (period_body Pmt Rate i (cols, b)) as [cols' b'] eqn:E.
      simpl in Hal', Hsnd, Hrows. subst b'.
      rewrite IH by assumption. rewrite Hrows, <- app_assoc. reflexivity.
Qed.

(** The rows of a plan's frame are the simulation of its periods. *)
Lemma rows_plan_frame (self : MortgagePaymentCalculator F) (Pmt : F)
    (Term_Periods : Z) (Rate : F) :
  rows (plan_frame self Pmt Term_Periods Rate)
  = simulate Pmt Rate (range 1 (Term_Periods + 1)) (principal self).
Proof.
  unfold plan_frame.
  pose proof (period_loop_rows Pmt Rate (range 1 (Term_Periods + 1))
                (cols := no_columns) (principal self)) as H.
  destruct (period_loop Pmt Rate (range 1 (Term_Periods + 1))
              (no_columns, principal self)) as [cols b'].
  unfold rows; simpl. apply H. repeat split.
Qed.

(** *** The simulation, row by row *)

Lemma range_length (start stop : Z) :
  List.length (range start stop) = Z.to_nat (stop - start).
Proof. unfold range. now rewrite length_map, length_seq. Qed.

Lemma range_nth (start stop : Z) (k : nat) (i : Z) :
  nth_error (range start stop) k = Some i -> i = (start + Z.of_nat k)%Z.
Proof.
  unfold range. intros H.
  rewrite nth_error_map in H.
  destruct (nth_error (seq 0 (Z.to_nat (stop - start))) k) as [n|] eqn:E;
    [|discriminate].
  injection H as <-.
  assert (Hk : (k < List.length (seq 0 (Z.to_nat (stop - start))))%nat).
  { apply nth_error_Some. congruence. }
  rewrite length_seq in Hk.
  pose proof (nth_error_nth' (seq 0 (Z.to_nat (stop - start))) 0%nat
                (n := k)) as Hn.
  rewrite length_seq in Hn. specialize (Hn Hk).
  rewrite seq_nth in Hn by assumption. simpl in Hn.
  congruence.
Qed.

Lemma simulate_length (Pmt Rate : F) :
  forall (periods : list Z) (b : F),
    (List.length (simulate Pmt Rate periods b) <= List.length periods)%nat.
Proof.
  induction periods as [|i periods IH]; intros b; cbn [simulate List.length]; [lia|].
  destruct (fleb _ _); cbn [List.length]; [lia|].
  apply le_n_S, IH.
Qed.

(** Row [k] is the row of the [k]-th period, entered with the balance the
    row before ended on; that balance was not [<= 0.0]. *)
Lemma simulate_nth (Pmt Rate : F) :
  forall (periods : list Z) (b : F) (k : nat) (r : row F),
    nth_error (simulate Pmt Rate periods b) k = Some r ->
    exists i, nth_error periods k = Some i /\
      r = period_row Pmt Rate i (balance_before b (simulate Pmt Rate periods b) k) /\
      (k <> O ->
       fleb (balance_before b (simulate Pmt Rate periods b) k) (lit 0) = false).
Proof.
  induction periods as [|i periods IH]; intros b k r H; [destruct k; discriminate|].
  cbn [simulate] in *.
  destruct k as [|k].
  - injection H as <-. exists i. repeat split. congruence.
  - cbn [nth_error] in H.
    destruct (fleb (row_Ending_Balance (period_row Pmt Rate i b)) (lit 0)) eqn:E;
      [destruct k; discriminate|].
    destruct (IH _ _ _ H) as (i' & Hi' & Hr & Hpos).
    exists i'. cbn [nth_error]. split; [assumption|].
    destruct k as [|k]; cbn [balance_before nth_error] in Hr, Hpos |- *.
    + split; [assumption|]. intros _. exact E.
    + destruct (nth_error (simulate Pmt Rate periods
                             (row_Ending_Balance (period_row Pmt Rate i b))) k)
        as [r0|] eqn:E0.
      * split; [assumption|]. intros _. apply Hpos. congruence.
      * apply nth_error_None in E0.
        assert (nth_error (simulate Pmt Rate periods
                  (row_Ending_Balance (period_row Pmt Rate i b))) (S k) = None)
          by (apply nth_error_None; lia).
        congruence.
Qed.

(** A row that is not the last one ends on a balance that is not [<= 0.0]. *)
Lemma simulate_not_last (Pmt Rate : F) :
  forall (periods : list Z) (b : F) (k : nat) (r : row F),
    nth_error (simulate Pmt Rate periods b) k = Some r ->
    (S k < List.length (simulate Pmt Rate periods b))%nat ->
    fleb (row_Ending_Balance r) (lit 0) = false.
Proof.
  induction periods as [|i periods IH]; intros b k r H Hlen; [destruct k; discriminate|].
  cbn [simulate] in *.
  destruct (fleb (row_Ending_Balance (period_row Pmt Rate i b)) (lit 0)) eqn:E.
  - cbn [List.length] in Hlen. lia.
  - destruct k as [|k].
    + injection H as <-. exact E.
    + cbn [nth_error] in H. cbn [List.length] in Hlen. eapply IH; [eassumption|lia].
Qed.

(** The last row ends on a balance [<= 0.0], or every period was simulated. *)
Lemma simulate_last (Pmt Rate : F) :
  forall (periods : list Z) (b : F) (k : nat) (r : row F),
    nth_error (simulate Pmt Rate periods b) k = Some r ->
    S k = List.length (simulate Pmt Rate periods b) ->
    fleb (row_Ending_Balance r) (lit 0) = true \/
    List.length (simulate Pmt Rate periods b) = List.length periods.
Proof.
  induction periods as [|i periods IH]; intros b k r H Hlen; [destruct k; discriminate|].
  cbn [simulate] in *.
  destruct (fleb (row_Ending_Balance (period_row Pmt Rate i b)) (lit 0)) eqn:E.
  - destruct k as [|k]; [|cbn [List.length] in Hlen; lia].
    injection H as <-. now left.
  - destruct k as [|k].
    + cbn [List.length] in Hlen. injection Hlen as Hlen.
      destruct periods as [|i' periods]; [now right|].
      cbn [simulate] in Hlen. discriminate.
    + cbn [nth_error] in H. cbn [List.length] in Hlen. injection Hlen as Hlen.
      destruct (IH _ _ _ H Hlen) as [Hz|Hfull]; [now left|right].
      cbn [List.length]. now rewrite Hfull.
Qed.

(** *** What [generate_schedule] returns *)

Lemma generate_schedule_eq (self : MortgagePaymentCalculator F) :
  generate_schedule self =
  (p <- calculatepayments self ;;
   Ok [("Monthly",
        plan_frame self (MonthlyPayment p) (term self * 12) (monthlyinterestrate self));
       ("Semi-Monthly",
        plan_frame self (SemiMonthlyPayment p) (term self * 24)
          (semimonthlyinterestrate self));
       ("Bi-Weekly",
        plan_frame self (BiweeklyPayment p) (term self * 26) (biweeklyinterestrate self));
       ("Weekly",
        plan_frame self (WeeklyPayment p) (term self * 52) (weeklyinterestrate self));
       ("Rapid Bi-Weekly",
        plan_frame self (RapidBiweeklyPayment p) (term self * 26)
          (biweeklyinterestrate self));
       ("Rapid Weekly",
        plan_frame self (RapidWeeklyPayment p) (term self * 52)
          (weeklyinterestrate self))]).
Proof.
  unfold generate_schedule. destruct (calculatepayments self) as [p|e]; reflexivity.
Qed.

Ltac name_cases name H :=
  repeat match type of H with
         | context [String.eqb name ?k] =>
             let E := fresh "E" in
             destruct (String.eqb name k) eqn:E;
             [apply String.eqb_eq in E; subst name; cbn in H |]
         end.

(** A frame of the result is the frame of one of the six plans. *)
Lemma schedule_of_inv (self : MortgagePaymentCalculator F) (name : string)
    (df : DataFrame F) :
  schedule_of self name df ->
  exists p Pmt freq Rate,
    calculatepayments self = Ok p /\
    plan_of self p name Pmt freq Rate /\
    df = plan_frame self Pmt (term self * freq) Rate.
Proof.
  intros (d & Hd & Hget). rewrite generate_schedule_eq in Hd.
  apply bind_Ok in Hd as (p & Hp & Hd). injection Hd as <-.
  exists p. unfold plan_of. cbn in Hget.
  name_cases name Hget; try discriminate;
    injection Hget as <-; do 3 eexists; repeat split; solve [reflexivity | exact Hp].
Qed.

(** Each of the six plans has a frame as soon as the payments are computed. *)
Lemma schedule_of_intro (self : MortgagePaymentCalculator F) (p : payments F)
    (name : string) (Pmt : F) (freq : Z) (Rate : F) :
  calculatepayments self = Ok p ->
  plan_of self p name Pmt freq Rate ->
  schedule_of self name (plan_frame self Pmt (term self * freq) Rate).
Proof.
  intros Hp [HP [Hf HR]]. unfold schedule_of.
  rewrite generate_schedule_eq, Hp. cbn [bind]. eexists; split; [reflexivity|].
  cbn in HP, Hf, HR; cbn.
  name_cases name HP; try discriminate;
    injection HP as <-; injection Hf as <-; injection HR as <-; reflexivity.
Qed.

(** The rows of a plan's schedule. *)
Lemma schedule_rows (self : MortgagePaymentCalculator F) (name : string)
    (df : DataFrame F) :
  schedule_of self name df ->
  exists p Pmt freq Rate,
    calculatepayments self = Ok p /\
    plan_of self p name Pmt freq Rate /\
    rows df = simulate Pmt Rate (range 1 (term self * freq + 1)) (principal self).
Proof.
  intros H. apply schedule_of_inv in H as (p & Pmt & freq & Rate & Hp & Hplan & ->).
  exists p, Pmt, freq, Rate. repeat split; try apply Hplan; try assumption.
  apply rows_plan_frame.
Qed.

Lemma plan_of_fun (self : MortgagePaymentCalculator F) (p : payments F)
    (name : string) (Pmt Pmt' : F) (freq freq' : Z) (Rate Rate' : F) :
  plan_of self p name Pmt freq Rate ->
  plan_of self p name Pmt' freq' Rate' ->
  Pmt = Pmt' /\ freq = freq' /\ Rate = Rate'.
Proof.
  intros (H1 & H2 & H3) (H1' & H2' & H3'). repeat split; congruence.
Qed.

(** The rows of the schedule of a plan whose payment, frequency and rate are
    known. *)
Lemma schedule_rows_of (self : MortgagePaymentCalculator F) (p : payments F)
    (name : string) (df : DataFrame F) (Pmt : F) (freq : Z) (Rate : F) :
  schedule_of self name df ->
  calculatepayments self = Ok p ->
  plan_of self p name Pmt freq Rate ->
  rows df = simulate Pmt Rate (range 1 (term self * freq + 1)) (principal self).
Proof.
  intros Hs Hp Hplan.
  destruct (schedule_rows Hs) as (p' & Pmt' & freq' & Rate' & Hp' & Hplan' & Hrows).
  assert (p' = p) by congruence. subst p'.
  destruct (plan_of_fun Hplan Hplan') as (-> & -> & ->). exact Hrows.
Qed.

(** *** The payments *)

Lemma calculate_payment_annuity (self : MortgagePaymentCalculator F) (r n : F) :
  calculate_payment self r n = annuity_payment (principal self) r n.
Proof.
  unfold calculate_payment, annuity_payment.
  destruct (feqb r (lit 0)); [reflexivity|].
  destruct ((lit 1 .+ r) ** n); reflexivity.
Qed.

(** When [calculatepayments] returns, and what. *)
Lemma calculatepayments_Ok (self : MortgagePaymentCalculator F) (p : payments F) :
  calculatepayments self = Ok p <->
  exists n n2 m s b w,
    float_of_int (amortization_period self * 12) = Ok n /\
    float_of_int (amortization_period self * 12 * 2) = Ok n2 /\
    calculate_payment self (monthlyinterestrate self) n = Ok m /\
    calculate_payment self (semimonthlyinterestrate self) n2 = Ok s /\
    calculate_payment self (biweeklyinterestrate self) (n .* (lit 26 ./ lit 12)) = Ok b /\
    calculate_payment self (weeklyinterestrate self) (n .* (lit 52 ./ lit 12)) = Ok w /\
    p = {| MonthlyPayment := m; SemiMonthlyPayment := s; BiweeklyPayment := b;
           WeeklyPayment := w; RapidBiweeklyPayment := m ./ lit 2;
           RapidWeeklyPayment := m ./ lit 4 |}.
Proof.
  unfold calculatepayments. split.
  - intros H.
    apply bind_Ok in H as (n & Hn & H). apply bind_Ok in H as (m & Hm & H).
    apply bind_Ok in H as (n2 & Hn2 & H). apply bind_Ok in H as (s & Hs & H).
    rewrite Hn in H. cbn [bind] in H.
    apply bind_Ok in H as (b & Hb & H). apply bind_Ok in H as (w & Hw & H).
    injection H as <-. exists n, n2, m, s, b, w. repeat split; assumption.
  - intros (n & n2 & m & s & b & w & Hn & Hn2 & Hm & Hs & Hb & Hw & ->).
    rewrite Hn. cbn [bind]. rewrite Hm. cbn [bind]. rewrite Hn2. cbn [bind].
    rewrite Hs. cbn [bind]. rewrite Hb. cbn [bind]. rewrite Hw. reflexivity.
Qed.

(** C3. Each of the four base payments is the annuity formula at the plan's
    periodic rate over the periods of the amortization period:
    [amortization * 12] for Monthly, [amortization * 24] for Semi-Monthly, and
    the float [amortization * 12 * (f/12)], used as it is, for Bi-Weekly
    ([f = 26]) and Weekly ([f = 52]).  The term plays no part. *)
Theorem C3_base_payments (self : MortgagePaymentCalculator F) (p : payments F) :
  calculatepayments self = Ok p ->
  (exists n12 n24,
      float_of_int (amortization_period self * 12) = Ok n12 /\
      float_of_int (amortization_period self * 24) = Ok n24 /\
      annuity_payment (principal self) (monthlyinterestrate self) n12
      = Ok (MonthlyPayment p) /\
      annuity_payment (principal self) (semimonthlyinterestrate self) n24
      = Ok (SemiMonthlyPayment p) /\
      annuity_payment (principal self) (biweeklyinterestrate self)
        (n12 .* (lit 26 ./ lit 12))
      = Ok (BiweeklyPayment p) /\
      annuity_payment (principal self) (weeklyinterestrate self)
        (n12 .* (lit 52 ./ lit 12))
      = Ok (WeeklyPayment p)) /\
  (forall t, calculatepayments (with_term self t) = Ok p).
Proof.
  intros H. split.
  - apply calculatepayments_Ok in H
      as (n & n2 & m & s & b & w & Hn & Hn2 & Hm & Hs & Hb & Hw & ->).
    exists n, n2. cbn [MonthlyPayment SemiMonthlyPayment BiweeklyPayment WeeklyPayment].
    rewrite <- !calculate_payment_annuity.
    replace (amortization_period self * 24)%Z
      with (amortization_period self * 12 * 2)%Z by lia.
    repeat split; assumption.
  - intros t. rewrite <- H. reflexivity.
Qed.

(** C7. The Rapid Bi-Weekly payment is the monthly payment divided by 2 and
    the Rapid Weekly payment is the monthly payment divided by 4, the monthly
    payment being the annuity formula at the monthly rate; these quotients are
    the payments the two rapid schedules are simulated with. *)
Theorem C7_rapid_payments (self : MortgagePaymentCalculator F) (p : payments F) :
  calculatepayments self = Ok p ->
  RapidBiweeklyPayment p = MonthlyPayment p ./ lit 2 /\
  RapidWeeklyPayment p = MonthlyPayment p ./ lit 4 /\
  (exists n12,
      float_of_int (amortization_period self * 12) = Ok n12 /\
      annuity_payment (principal self) (monthlyinterestrate self) n12
      = Ok (MonthlyPayment p)) /\
  plan_of self p "Rapid Bi-Weekly" (MonthlyPayment p ./ lit 2) 26
    (biweeklyinterestrate self) /\
  plan_of self p "Rapid Weekly" (MonthlyPayment p ./ lit 4) 52
    (weeklyinterestrate self).
Proof.
  intros H.
  apply calculatepayments_Ok in H
    as (n & n2 & m & s & b & w & Hn & Hn2 & Hm & Hs & Hb & Hw & ->).
  cbn [MonthlyPayment RapidBiweeklyPayment RapidWeeklyPayment].
  repeat split.
  exists n. now rewrite <- calculate_payment_annuity.
Qed.

(** What [__init__] stores. *)
Lemma init_Ok (principal_ interestrate_ : F) (amortization_period_ term_ : Z)
    (self : MortgagePaymentCalculator F) :
  init principal_ interestrate_ amortization_period_ term_ = Ok self ->
  principal self = principal_ /\
  interestrate self = interestrate_ ./ lit 100 /\
  amortization_period self = amortization_period_ /\
  term self = term_ /\
  exists m s b w,
    (lit 1 .+ interestrate self ./ lit 2) ** (lit 2 ./ lit 12) = Ok m /\
    (lit 1 .+ interestrate self ./ lit 2) ** (lit 2 ./ lit 24) = Ok s /\
    (lit 1 .+ interestrate self ./ lit 2) ** (lit 2 ./ lit 26) = Ok b /\
    (lit 1 .+ interestrate self ./ lit 2) ** (lit 2 ./ lit 52) = Ok w /\
    monthlyinterestrate self = m .- lit 1 /\
    semimonthlyinterestrate self = s .- lit 1 /\
    biweeklyinterestrate self = b .- lit 1 /\
    weeklyinterestrate self = w .- lit 1.
Proof.
  unfold init. intros H.
  apply bind_Ok in H as (m & Hm & H). apply bind_Ok in H as (s & Hs & H).
  apply bind_Ok in H as (b & Hb & H). apply bind_Ok in H as (w & Hw & H).
  injection H as <-. cbn. repeat split. exists m, s, b, w. repeat split; assumption.
Qed.

(** The rate of a plan is one of the four periodic rates. *)
Lemma plan_of_rate (self : MortgagePaymentCalculator F) (p : payments F)
    (name : string) (Pmt : F) (freq : Z) (Rate : F) :
  plan_of self p name Pmt freq Rate ->
  Rate = monthlyinterestrate self \/ Rate = semimonthlyinterestrate self \/
  Rate = biweeklyinterestrate self \/ Rate = weeklyinterestrate self.
Proof.
  intros (_ & _ & H). cbn in H.
  name_cases name H; try discriminate; injection H as <-; auto.
Qed.

(** In every row the payment column holds the rounded payment, while the
    principal portion is computed from the payment as it is. *)
Lemma payment_column (self : MortgagePaymentCalculator F) (p : payments F)
    (name : string) (df : DataFrame F) (Pmt : F) (freq : Z) (Rate : F)
    (k : nat) (r : row F) :
  schedule_of self name df ->
  calculatepayments self = Ok p ->
  plan_of self p name Pmt freq Rate ->
  nth_error (rows df) k = Some r ->
  row_Payment r = round2 Pmt /\
  (row_Principal_Paid r = round2 (Pmt .- row_Interest_Paid r) \/
   row_Principal_Paid r = balance_before (principal self) (rows df) k /\
   row_Ending_Balance r = lit 0).
Proof.
  intros Hs Hp Hplan Hr. rewrite (schedule_rows_of Hs Hp Hplan) in *.
  destruct (simulate_nth _ _ _ _ _ Hr) as (i & _ & -> & _).
  unfold period_row; cbn.
  destruct (fltb _ _); auto.
Qed.


(** The length of a schedule and where it stops, by the test [<= 0.0] of the
    loop. *)
Lemma length_and_break (self : MortgagePaymentCalculator F) (p : payments F)
    (name : string) (df : DataFrame F) (Pmt : F) (freq : Z) (Rate : F) :
  schedule_of self name df ->
  calculatepayments self = Ok p ->
  plan_of self p name Pmt freq Rate ->
  (List.length (rows df) <= Z.to_nat (term self * freq))%nat /\
  (forall k r, nth_error (rows df) k = Some r ->
               (S k < List.length (rows df))%nat ->
               fleb (row_Ending_Balance r) (lit 0) = false) /\
  (forall k r, nth_error (rows df) k = Some r ->
               S k = List.length (rows df) ->
               fleb (row_Ending_Balance r) (lit 0) = true \/
               List.length (rows df) = Z.to_nat (term self * freq)).
Proof.
  intros Hs Hp Hplan.
  pose proof (schedule_rows_of Hs Hp Hplan) as Hrows.
  assert (Hlen : List.length (range 1 (term self * freq + 1))
                 = Z.to_nat (term self * freq)).
  { rewrite range_length. f_equal. lia. }
  rewrite Hrows. repeat split.
  - rewrite <- Hlen. apply simulate_length.
  - intros k r Hr Hk. eapply simulate_not_last; eassumption.
  - intros k r Hr Hk. rewrite <- Hlen. eapply simulate_last; eassumption.
Qed.

(** C1. In the schedule of every plan, every period is computed from the
    balance [b] it starts with (the principal, then the ending balance of the
    row before), the plan's payment [Pmt] and its periodic rate [Rate]:
    the interest is [round(b * Rate, 2)], the principal portion is
    [round(Pmt - interest, 2)], and when [b] minus that portion is negative
    the portion becomes [b] and the ending balance [0], otherwise the ending
    balance is [round(b - portion, 2)].  Every step is rounded where it is
    computed; the row records [round(b, 2)] as its beginning balance. *)
Theorem C1_period_computation (self : MortgagePaymentCalculator F)
    (p : payments F) (name : string) (df : DataFrame F)
    (Pmt : F) (freq : Z) (Rate : F) (k : nat) (r : row F) :
  schedule_of self name df ->
  calculatepayments self = Ok p ->
  plan_of self p name Pmt freq Rate ->
  nth_error (rows df) k = Some r ->
  let b := balance_before (principal self) (rows df) k in
  let interestPortion := round2 (b .* Rate) in
  let principalPortion := round2 (Pmt .- interestPortion) in
  row_Beginning_Balance r = round2 b /\
  row_Interest_Paid r = interestPortion /\
  (if fltb (b .- principalPortion) (lit 0)
   then row_Principal_Paid r = b /\ row_Ending_Balance r = lit 0
   else row_Principal_Paid r = principalPortion /\
        row_Ending_Balance r = round2 (b .- principalPortion)).
Proof.
  intros Hs Hp Hplan Hr. rewrite (schedule_rows_of Hs Hp Hplan) in *.
  destruct (simulate_nth _ _ _ _ _ Hr) as (i & _ & -> & _).
  cbv zeta. unfold period_row; cbn.
  destruct (fltb _ _); auto.
Qed.

End Generic.

(** ** Rounding exact amounts *)

Section Rounding.

Open Scope Q_scope.

Lemma round_half_even_comp (q q' : Q) :
  q == q' -> round_half_even q = round_half_even q'.
Proof.
  intros H. unfold round_half_even.
  rewrite <- (Qfloor_comp _ _ H).
  assert (E : (q - inject_Z (Qfloor q) ?= 1 # 2) = (q' - inject_Z (Qfloor q) ?= 1 # 2))
    by (apply Qcompare_comp; [apply Qplus_comp; [exact H | reflexivity] | reflexivity]).
  now rewrite E.
Qed.

Lemma round_half_even_Z (m : Z) : round_half_even (inject_Z m) = m.
Proof.
  unfold round_half_even. rewrite Qfloor_Z.
  destruct (Qcompare_spec (inject_Z m - inject_Z m) (1 # 2)) as [H|H|H];
    [exfalso; lra | reflexivity | exfalso; lra].
Qed.

Lemma round_half_even_mono (x y : Q) :
  x <= y -> (round_half_even x <= round_half_even y)%Z.
Proof.
  intros Hxy.
  pose proof (Qfloor_resp_le _ _ Hxy) as Hf.
  destruct (Z.eq_dec (Qfloor x) (Qfloor y)) as [E|NE].
  - unfold round_half_even. rewrite <- E.
    destruct (Qcompare_spec (x - inject_Z (Qfloor x)) (1 # 2)) as [Hx|Hx|Hx];
      destruct (Qcompare_spec (y - inject_Z (Qfloor x)) (1 # 2)) as [Hy|Hy|Hy];
      try (destruct (Z.even (Qfloor x))); try lia; exfalso; lra.
  - assert (Hlt : (Qfloor x + 1 <= Qfloor y)%Z) by lia.
    assert (Hx : (round_half_even x <= Qfloor x + 1)%Z).
    { unfold round_half_even.
      destruct (_ ?= _); try destruct (Z.even _); lia. }
    assert (Hy : (Qfloor y <= round_half_even y)%Z).
    { unfold round_half_even.
      destruct (_ ?= _); try destruct (Z.even _); lia. }
    lia.
Qed.

Lemma Qround2_idem (x : Q) : Qround2 (Qround2 x) == Qround2 x.
Proof.
  unfold Qround2 at 1.
  rewrite (round_half_even_comp (q' := inject_Z (round_half_even (x * 100)))).
  - now rewrite round_half_even_Z.
  - unfold Qround2. field.
Qed.

Lemma Qround2_mono (x y : Q) : x <= y -> Qround2 x <= Qround2 y.
Proof.
  intros H. unfold Qround2.
  assert (Hm : (round_half_even (x * 100) <= round_half_even (y * 100))%Z)
    by (apply round_half_even_mono; lra).
  rewrite Zle_Qle in Hm.
  apply Qmult_le_compat_r; [assumption|]. now vm_compute.
Qed.

Lemma Qround2_0 : Qround2 0 == 0.
Proof. reflexivity. Qed.

Lemma Qround2_nonneg (x : Q) : 0 <= x -> 0 <= Qround2 x.
Proof.
  intros H. rewrite <- Qround2_0. now apply Qround2_mono.
Qed.

End Rounding.

(** ** Schedules in exact arithmetic *)

Section Exact.

Context {pw : PlatformPow}.

Open Scope Q_scope.

Lemma fleb_false (x : Q) : fleb x (lit 0) = false <-> 0 < x.
Proof.
  cbn. change (inject_Z 0) with 0. split.
  - intros H. apply Qnot_le_lt. intros Hle. apply Qle_bool_iff in Hle. congruence.
  - intros H. destruct (Qle_bool x 0) eqn:E; [|reflexivity].
    apply Qle_bool_iff in E. exfalso; lra.
Qed.

Lemma fltb_false (x : Q) : fltb x (lit 0) = false <-> 0 <= x.
Proof.
  cbn. change (inject_Z 0) with 0. rewrite negb_false_iff. apply Qle_bool_iff.
Qed.

(** The ending balance of a row is an amount in whole cents, and not
    negative. *)
Lemma period_row_ending (Pmt Rate : Q) (i : Z) (b : Q) :
  let e := row_Ending_Balance (period_row Pmt Rate i b) in
  Qround2 e == e /\ 0 <= e.
Proof.
  unfold period_row; cbn [row_Ending_Balance].
  destruct (fltb _ _) eqn:E.
  - split; [reflexivity | now vm_compute].
  - apply fltb_false in E. split; [apply Qround2_idem | now apply Qround2_nonneg].
Qed.

(** The rows of a schedule, with what the row before leaves to each. *)
Lemma schedule_row (self : MortgagePaymentCalculator Q) (name : string)
    (df : DataFrame Q) (k : nat) (r : row Q) :
  schedule_of self name df ->
  nth_error (rows df) k = Some r ->
  exists Pmt Rate i,
    r = period_row Pmt Rate i (balance_before (principal self) (rows df) k) /\
    (k <> O -> 0 < balance_before (principal self) (rows df) k).
Proof.
  intros Hs Hr.
  destruct (schedule_rows Hs) as (p & Pmt & freq & Rate & _ & _ & Hrows).
  rewrite Hrows in *.
  destruct (simulate_nth _ _ _ _ _ Hr) as (i & _ & Hrow & Hpos).
  exists Pmt, Rate, i. split; [assumption|].
  intros Hk. apply fleb_false. now apply Hpos.
Qed.

(** No ending balance is negative. *)
Lemma ending_balance_nonneg (self : MortgagePaymentCalculator Q) (name : string)
    (df : DataFrame Q) (k : nat) (r : row Q) :
  schedule_of self name df ->
  nth_error (rows df) k = Some r ->
  0 <= row_Ending_Balance r.
Proof.
  intros Hs Hr.
  destruct (schedule_row _ Hs Hr) as (Pmt & Rate & i & -> & _).
  apply period_row_ending.
Qed.

(** *** A zero rate *)

Lemma Qpow_one (x y : Q) : x == 1 -> Qpow x y = Ok 1.
Proof.
  intros H. unfold Qpow. destruct (Qeq_bool y 0); [reflexivity|].
  apply Qeq_bool_iff in H. now rewrite H.
Qed.

(** The object [__init__] builds from a zero rate: the four periodic rates
    are [1 - 1]. *)
Lemma init_zero_rate (P pct : Q) (a t : Z) :
  pct == 0 ->
  init P pct a t =
  Ok {| principal := P; interestrate := pct / 100;
        amortization_period := a; term := t;
        monthlyinterestrate := 1 - 1; semimonthlyinterestrate := 1 - 1;
        biweeklyinterestrate := 1 - 1; weeklyinterestrate := 1 - 1 |}.
Proof.
  intros H. unfold init.
  assert (Hb : forall y, (lit 1 .+ (pct ./ lit 100) ./ lit 2) ** y = Ok 1).
  { intros y. apply Qpow_one.
    change (1 + pct / 100 / 2 == 1). rewrite H. reflexivity. }
  rewrite !Hb. reflexivity.
Qed.

End Exact.

(** ** Schedules on doubles *)

Section Doubles.

Context {L : Libm}.

(** *** The sign of a double through [np.round] *)

Lemma ltb_zero (x : float) :
  (x <? 0)%float = false <-> not_negative (Prim2SF x).
Proof.
  rewrite FloatAxioms.ltb_spec. change (Prim2SF 0) with (S754_zero false).
  destruct (Prim2SF x) as [s|s| |s m e]; try destruct s; cbn; intuition congruence.
Qed.

Lemma binary_round_aux_not_negative (mx ex : Z) (lx : location) :
  not_negative (binary_round_aux prec emax false mx ex lx).
Proof.
  unfold binary_round_aux.
  destruct (shr_fexp prec emax mx ex lx) as [mrs e].
  destruct (shr_fexp prec emax _ e loc_Exact) as [mrs' e'].
  destruct (shr_m mrs'); [exact I| |exact I].
  destruct (e' <=? emax - prec)%Z; exact I.
Qed.

Lemma mul_not_negative (x y : float) :
  not_negative (Prim2SF x) -> Prim2SF y = Prim2SF 100%float ->
  not_negative (Prim2SF (x * y)).
Proof.
  intros Hx Hy. rewrite mul_spec, Hy.
  destruct (Prim2SF x) as [s|s| |s m e]; try destruct s; try contradiction; cbn;
    try exact I.
  apply binary_round_aux_not_negative.
Qed.

Lemma div_not_negative (x y : float) :
  not_negative (Prim2SF x) -> Prim2SF y = Prim2SF 100%float ->
  not_negative (Prim2SF (x / y)).
Proof.
  intros Hx Hy. rewrite div_spec, Hy.
  destruct (Prim2SF x) as [s|s| |s m e]; try destruct s; try contradiction; cbn;
    try exact I.
  destruct (SFdiv_core_binary _ _ _ _ _ _) as [[mz ez] lz].
  apply binary_round_aux_not_negative.
Qed.

(** Among the doubles that are not below zero only [-0.0] has its sign bit
    set. *)
Lemma get_sign_true (x : float) :
  not_negative (Prim2SF x) -> get_sign x = true -> x = (-0)%float.
Proof.
  intros Hx Hs. apply Prim2SF_inj. change (Prim2SF (-0)) with (S754_zero true).
  unfold get_sign, is_zero in Hs. cbv zeta in Hs.
  destruct (x =? zero)%float eqn:Hz.
  - rewrite FloatAxioms.eqb_spec in Hz. rewrite FloatAxioms.ltb_spec, div_spec in Hs.
    change (Prim2SF zero) with (S754_zero false) in Hz, Hs.
    change (Prim2SF one) with (S754_finite false 4503599627370496 (-52)) in Hs.
    destruct (Prim2SF x) as [s|s| |s m e]; try destruct s; try contradiction;
      cbn in Hz, Hs; try discriminate; reflexivity.
  - rewrite FloatAxioms.ltb_spec in Hs.
    change (Prim2SF zero) with (S754_zero false) in Hs.
    destruct (Prim2SF x) as [s|s| |s m e]; try destruct s; try contradiction;
      cbn in Hs; discriminate.
Qed.

Lemma abs_not_negative (x : float) : not_negative (Prim2SF (abs x)).
Proof. rewrite abs_spec. destruct (Prim2SF x); exact I. Qed.

Lemma rint_not_negative (x : float) :
  not_negative (Prim2SF x) -> not_negative (Prim2SF (rint x)).
Proof.
  intros Hx. unfold rint. destruct (abs x <? two52)%float; [|exact Hx].
  unfold copysign. destruct (get_sign x) eqn:Hs.
  - rewrite (get_sign_true Hx Hs). exact I.
  - apply abs_not_negative.
Qed.

(** [np.round(x, 2)] of a double that is not below zero is not below zero. *)
Lemma b64_round2_not_negative (x : float) :
  (x <? 0)%float = false -> (b64_round2 x <? 0)%float = false.
Proof.
  rewrite !ltb_zero. intros Hx. unfold b64_round2.
  apply div_not_negative; [|reflexivity].
  apply rint_not_negative. apply mul_not_negative; [exact Hx|reflexivity].
Qed.

(** A double [<= 0.0] that is not below zero equals zero, and conversely. *)
Lemma leb_zero (x : float) :
  (x <=? 0)%float = true -> (x <? 0)%float = false -> (x =? 0)%float = true.
Proof.
  rewrite FloatAxioms.leb_spec, FloatAxioms.ltb_spec, FloatAxioms.eqb_spec.
  unfold SFleb, SFltb, SFeqb.
  destruct (SFcompare (Prim2SF x) (Prim2SF 0)) as [[ | | ]|]; congruence.
Qed.

Lemma eqb_zero_leb (x : float) :
  (x =? 0)%float = true -> (x <=? 0)%float = true.
Proof.
  rewrite FloatAxioms.leb_spec, FloatAxioms.eqb_spec. unfold SFleb, SFeqb.
  destruct (SFcompare (Prim2SF x) (Prim2SF 0)) as [[ | | ]|]; congruence.
Qed.

(** *** Zero, finite doubles and NaN *)

(** A double that is not [<= 0.0] is above zero or a NaN. *)
Lemma leb_zero_false (e : float) :
  (e <=? 0)%float = false -> (0 <? e)%float = true \/ is_nan e = true.
Proof.
  unfold is_nan.
  rewrite FloatAxioms.leb_spec, FloatAxioms.ltb_spec, FloatAxioms.eqb_spec.
  change (Prim2SF 0) with (S754_zero false).
  destruct (Prim2SF e) as [s|s| |s m x]; try destruct s; cbn; intros H;
    solve [discriminate H | now left | now right].
Qed.


Lemma is_finite_cases (x : float) :
  is_finite x = true <->
  match Prim2SF x with
  | S754_zero _ | S754_finite _ _ _ => True
  | _ => False
  end.
Proof.
  unfold is_finite, is_nan, is_infinity.
  rewrite !FloatAxioms.eqb_spec, abs_spec.
  change (Prim2SF infinity) with (S754_infinity false).
  destruct (Prim2SF x) as [s|s| |s m e].
  - cbn. tauto.
  - destruct s; cbn; intuition discriminate.
  - cbn. intuition discriminate.
  - unfold SFeqb at 1. unfold SFcompare at 1.
    rewrite Z.compare_refl, Pos.compare_refl.
    destruct s; cbn; tauto.
Qed.

(** The doubles that equal zero are [0.0] and [-0.0]. *)
Lemma eqb_zero_cases (x : float) :
  (x =? 0)%float = true -> x = 0%float \/ x = (-0)%float.
Proof.
  rewrite FloatAxioms.eqb_spec. change (Prim2SF 0) with (S754_zero false).
  destruct (Prim2SF x) as [s|s| |s m e] eqn:E; try destruct s; cbn;
    try discriminate; intros _.
  - right. apply Prim2SF_inj. exact E.
  - left. apply Prim2SF_inj. exact E.
Qed.

(** A finite double times zero is zero. *)
Lemma fmul_zero_r (x y : float) :
  is_finite x = true -> (y =? 0)%float = true -> (x * y =? 0)%float = true.
Proof.
  intros Hx Hy. apply is_finite_cases in Hx.
  rewrite FloatAxioms.eqb_spec, mul_spec. change (Prim2SF 0) with (S754_zero false).
  destruct (eqb_zero_cases Hy) as [-> | ->];
    [change (Prim2SF 0) with (S754_zero false)
    |change (Prim2SF (-0)) with (S754_zero true)];
    destruct (Prim2SF x) as [s|s| |s m e]; try contradiction;
    destruct s; reflexivity.
Qed.

Lemma b64_round2_zero (x : float) :
  (x =? 0)%float = true -> (b64_round2 x =? 0)%float = true.
Proof.
  intros H. destruct (eqb_zero_cases H) as [-> | ->]; reflexivity.
Qed.

Lemma fsub_zero (x y : float) :
  (x =? 0)%float = true -> (y =? 0)%float = true -> (x - y =? 0)%float = true.
Proof.
  intros Hx Hy.
  destruct (eqb_zero_cases Hx) as [-> | ->];
    destruct (eqb_zero_cases Hy) as [-> | ->]; reflexivity.
Qed.

Lemma eqb_zero_not_ltb (x : float) :
  (x =? 0)%float = true -> (x <? 0)%float = false.
Proof.
  intros H. destruct (eqb_zero_cases H) as [-> | ->]; reflexivity.
Qed.

(** *** Ending balances on doubles *)

Lemma period_row_ending_b64 (Pmt Rate : float) (i : Z) (b : float) :
  (row_Ending_Balance (period_row Pmt Rate i b) <? 0)%float = false.
Proof.
  unfold period_row; cbn [row_Ending_Balance].
  destruct (fltb _ _) eqn:E; [reflexivity|].
  apply b64_round2_not_negative. exact E.
Qed.

(** On doubles no ending balance is below zero. *)
Lemma ending_balance_not_negative_b64 (self : MortgagePaymentCalculator float)
    (name : string) (df : DataFrame float) (k : nat) (r : row float) :
  schedule_of self name df ->
  nth_error (rows df) k = Some r ->
  (row_Ending_Balance r <? 0)%float = false.
Proof.
  intros Hs Hr.
  destruct (schedule_rows Hs) as (p & Pmt & freq & Rate & _ & _ & Hrows).
  rewrite Hrows in Hr.
  destruct (simulate_nth _ _ _ _ _ Hr) as (i & _ & -> & _).
  apply period_row_ending_b64.
Qed.

(** On doubles a balance [<= 0.0] is a zero balance, and a balance that is
    not is above zero or a NaN: every row but the last ends above zero or on
    a NaN, a row that ends on zero is the last one, and the last row ends on
    zero, or is row [term * frequency] and ends above zero or on a NaN. *)
Lemma length_and_payoff_b64 (self : MortgagePaymentCalculator float)
    (p : payments float) (name : string) (df : DataFrame float)
    (Pmt : float) (freq : Z) (Rate : float) :
  schedule_of self name df ->
  calculatepayments self = Ok p ->
  plan_of self p name Pmt freq Rate ->
  (forall k r, nth_error (rows df) k = Some r ->
               (S k < List.length (rows df))%nat ->
               (0 <? row_Ending_Balance r)%float = true \/
               is_nan (row_Ending_Balance r) = true) /\
  (forall k r, nth_error (rows df) k = Some r ->
               (row_Ending_Balance r =? 0)%float = true ->
               S k = List.length (rows df)) /\
  (forall k r, nth_error (rows df) k = Some r ->
               S k = List.length (rows df) ->
               (row_Ending_Balance r =? 0)%float = true \/
               (List.length (rows df) = Z.to_nat (term self * freq) /\
                ((0 <? row_Ending_Balance r)%float = true \/
                 is_nan (row_Ending_Balance r) = true))).
Proof.
  intros Hs Hp Hplan.
  destruct (length_and_break Hs Hp Hplan) as (_ & Hnl & Hlast).
  split; [|split].
  - intros k r Hr Hk. apply leb_zero_false. exact (Hnl k r Hr Hk).
  - intros k r Hr Hz.
    assert (Hk : (k < List.length (rows df))%nat)
      by (apply nth_error_Some; congruence).
    destruct (Nat.eq_dec (S k) (List.length (rows df))) as [E|NE]; [exact E|].
    assert (Hf : fleb (row_Ending_Balance r) (lit 0) = false)
      by (apply (Hnl k); [assumption|lia]).
    apply eqb_zero_leb in Hz.
    change (fleb (row_Ending_Balance r) (lit 0))
      with (row_Ending_Balance r <=? 0)%float in Hf.
    congruence.
  - intros k r Hr Hk.
    destruct (row_Ending_Balance r <=? 0)%float eqn:E.
    + left. apply leb_zero; [exact E|].
      eapply ending_balance_not_negative_b64; eassumption.
    + right. destruct (Hlast k r Hr Hk) as [Hz|Hfull].
      * change (fleb (row_Ending_Balance r) (lit 0))
          with (row_Ending_Balance r <=? 0)%float in Hz. congruence.
      * split; [exact Hfull | apply leb_zero_false; exact E].
Qed.

(** *** A principal of zero *)

Lemma period_row_zero_b64 (Pmt Rate : float) (i : Z) (b : float) :
  (b =? 0)%float = true -> (Pmt =? 0)%float = true -> is_finite Rate = true ->
  let r := period_row Pmt Rate i b in
  (row_Beginning_Balance r =? 0)%float = true /\
  (row_Payment r =? 0)%float = true /\
  (row_Interest_Paid r =? 0)%float = true /\
  (row_Principal_Paid r =? 0)%float = true /\
  (row_Ending_Balance r =? 0)%float = true.
Proof.
  intros Hb HPmt HR.
  assert (HI : (b64_round2 (b * Rate) =? 0)%float = true).
  { apply b64_round2_zero.
    destruct (eqb_zero_cases Hb) as [-> | ->];
      apply is_finite_cases in HR;
      rewrite FloatAxioms.eqb_spec, mul_spec;
      [change (Prim2SF 0) with (S754_zero false)
      |change (Prim2SF (-0)) with (S754_zero true);
       change (Prim2SF 0) with (S754_zero false)];
      destruct (Prim2SF Rate) as [s|s| |s m e]; try contradiction;
      destruct s; reflexivity. }
  assert (Hpp : (b64_round2 (Pmt - b64_round2 (b * Rate)) =? 0)%float = true)
    by (apply b64_round2_zero; apply fsub_zero; assumption).
  assert (Hdiff : (b - b64_round2 (Pmt - b64_round2 (b * Rate)) =? 0)%float = true)
    by (apply fsub_zero; assumption).
  unfold period_row.
  cbn [row_Beginning_Balance row_Payment row_Interest_Paid row_Principal_Paid
       row_Ending_Balance].
  change (round2 (b .* Rate)) with (b64_round2 (b * Rate)).
  change (round2 (Pmt .- b64_round2 (b * Rate)))
    with (b64_round2 (Pmt - b64_round2 (b * Rate))).
  change (fltb (b .- b64_round2 (Pmt - b64_round2 (b * Rate))) (lit 0))
    with (b - b64_round2 (Pmt - b64_round2 (b * Rate)) <? 0)%float.
  rewrite (eqb_zero_not_ltb Hdiff).
  split; [exact (b64_round2_zero Hb)|].
  split; [exact (b64_round2_zero HPmt)|].
  split; [exact HI|]. split; [exact Hpp|].
  exact (b64_round2_zero Hdiff).
Qed.

Lemma zero_principal_b64 (self : MortgagePaymentCalculator float)
    (p : payments float) (name : string) (df : DataFrame float)
    (Pmt : float) (freq : Z) (Rate : float) :
  schedule_of self name df ->
  calculatepayments self = Ok p ->
  plan_of self p name Pmt freq Rate ->
  (principal self =? 0)%float = true ->
  (Pmt =? 0)%float = true ->
  is_finite Rate = true ->
  (List.length (rows df) <= 1)%nat /\
  (forall k r, nth_error (rows df) k = Some r ->
     (row_Beginning_Balance r =? 0)%float = true /\
     (row_Payment r =? 0)%float = true /\
     (row_Interest_Paid r =? 0)%float = true /\
     (row_Principal_Paid r =? 0)%float = true /\
     (row_Ending_Balance r =? 0)%float = true).
Proof.
  intros Hs Hp Hplan HP HPmt HR.
  rewrite (schedule_rows_of Hs Hp Hplan).
  destruct (range 1 (term self * freq + 1)) as [|i periods]; cbn [simulate].
  - split; [cbn; lia|]. intros k r Hr. destruct k; discriminate.
  - pose proof (@period_row_zero_b64 Pmt Rate i (principal self) HP HPmt HR) as Hrow. cbv zeta in Hrow.
    assert (Hbreak : fleb (row_Ending_Balance (period_row Pmt Rate i (principal self)))
                          (lit 0) = true).
    { apply eqb_zero_leb. apply Hrow. }
    rewrite Hbreak. split; [cbn; lia|].
    intros k r Hr. destruct k as [|k]; [|destruct k; discriminate].
    injection Hr as <-. exact Hrow.
Qed.

End Doubles.

(** ** Ending balances, adjacent rows and the length of a schedule *)

(** C5, as the code has it. On doubles, in the schedule of every plan, no
    ending balance is below zero. *)
Theorem C5_ending_balances (L : Libm) (self : MortgagePaymentCalculator float)
    (name : string) (df : DataFrame float) (k : nat) (r : row float) :
  schedule_of (A := binary64) self name df ->
  nth_error (rows df) k = Some r ->
  (row_Ending_Balance r <? 0)%float = false.
Proof.
  intros Hs Hr. eapply ending_balance_not_negative_b64; eassumption.
Qed.


(** C6, as the code has it. The schedule of a plan has at most
    [term * frequency] rows, the frequency being the listed one (26 and 52
    for the rapid plans).  In every arithmetic a row that is not the last one
    ends on a balance that is not [<= 0.0], and the last row ends on a balance
    [<= 0.0] or is row [term * frequency].  On doubles a balance [<= 0.0] is
    a zero balance and one that is not is above zero or a NaN: every row but
    the last ends above zero or on a NaN, a row that ends on zero is the last
    one, and the last row ends on zero, or is row [term * frequency] and ends
    above zero or on a NaN. *)
Theorem C6_length_and_payoff :
  dict_get frequencies "Rapid Bi-Weekly" = Ok 26 /\
  dict_get frequencies "Rapid Weekly" = Ok 52 /\
  (forall (F : Type) (A : Arith F) (self : MortgagePaymentCalculator F)
          (p : payments F) (name : string) (df : DataFrame F)
          (Pmt : F) (freq : Z) (Rate : F),
      schedule_of self name df ->
      calculatepayments self = Ok p ->
      plan_of self p name Pmt freq Rate ->
      let totalTermPeriods := Z.to_nat (term self * freq) in
      (List.length (rows df) <= totalTermPeriods)%nat /\
      (forall k r, nth_error (rows df) k = Some r ->
                   (S k < List.length (rows df))%nat ->
                   fleb (row_Ending_Balance r) (lit 0) = false) /\
      (forall k r, nth_error (rows df) k = Some r ->
                   S k = List.length (rows df) ->
                   fleb (row_Ending_Balance r) (lit 0) = true \/
                   List.length (rows df) = totalTermPeriods)) /\
  (forall (L : Libm) (self : MortgagePaymentCalculator float)
          (p : payments float) (name : string) (df : DataFrame float)
          (Pmt : float) (freq : Z) (Rate : float),
      schedule_of (A := binary64) self name df ->
      calculatepayments self = Ok p ->
      plan_of self p name Pmt freq Rate ->
      let totalTermPeriods := Z.to_nat (term self * freq) in
      (forall k r, nth_error (rows df) k = Some r ->
                   (S k < List.length (rows df))%nat ->
                   (0 <? row_Ending_Balance r)%float = true \/
                   is_nan (row_Ending_Balance r) = true) /\
      (forall k r, nth_error (rows df) k = Some r ->
                   (row_Ending_Balance r =? 0)%float = true ->
                   S k = List.length (rows df)) /\
      (forall k r, nth_error (rows df) k = Some r ->
                   S k = List.length (rows df) ->
                   (row_Ending_Balance r =? 0)%float = true \/
                   (List.length (rows df) = totalTermPeriods /\
                    ((0 <? row_Ending_Balance r)%float = true \/
                     is_nan (row_Ending_Balance r) = true)))).
Proof.
  split; [reflexivity|]. split; [reflexivity|]. split.
  - intros F A self p name df Pmt freq Rate Hs Hp Hplan.
    exact (length_and_break Hs Hp Hplan).
  - intros L self p name df Pmt freq Rate Hs Hp Hplan.
    exact (length_and_payoff_b64 Hs Hp Hplan).
Qed.

(** ** A zero rate *)

Section ZeroRate.
Context {F : Type} {A : Arith F}.

(** At a zero rate a payment is the principal divided by the periods. *)
Lemma calculate_payment_zero_rate (self : MortgagePaymentCalculator F) (r n : F) :
  feqb r (lit 0) = true ->
  calculate_payment self r n = truediv (principal self) n.
Proof. intros H. unfold calculate_payment. now rewrite H. Qed.

Lemma truediv_Ok (x y q : F) :
  truediv x y = Ok q <-> feqb y (lit 0) = false /\ q = x ./ y.
Proof.
  unfold truediv. destruct (feqb y (lit 0)); split.
  - discriminate.
  - intros [H _]. discriminate H.
  - intros H. injection H as <-. now split.
  - intros [_ ->]. reflexivity.
Qed.

(** When [calculatepayments] returns at zero rates, and what. *)
Lemma calculatepayments_zero_rates (self : MortgagePaymentCalculator F)
    (p : payments F) :
  feqb (monthlyinterestrate self) (lit 0) = true ->
  feqb (semimonthlyinterestrate self) (lit 0) = true ->
  feqb (biweeklyinterestrate self) (lit 0) = true ->
  feqb (weeklyinterestrate self) (lit 0) = true ->
  calculatepayments self = Ok p <->
  exists n12 n24,
    float_of_int (amortization_period self * 12) = Ok n12 /\
    float_of_int (amortization_period self * 24) = Ok n24 /\
    feqb n12 (lit 0) = false /\
    feqb n24 (lit 0) = false /\
    feqb (n12 .* (lit 26 ./ lit 12)) (lit 0) = false /\
    feqb (n12 .* (lit 52 ./ lit 12)) (lit 0) = false /\
    p = {| MonthlyPayment := principal self ./ n12;
           SemiMonthlyPayment := principal self ./ n24;
           BiweeklyPayment := principal self ./ (n12 .* (lit 26 ./ lit 12));
           WeeklyPayment := principal self ./ (n12 .* (lit 52 ./ lit 12));
           RapidBiweeklyPayment := (principal self ./ n12) ./ lit 2;
           RapidWeeklyPayment := (principal self ./ n12) ./ lit 4 |}.
Proof.
  intros Hm Hs Hb Hw.
  replace (amortization_period self * 24)%Z
    with (amortization_period self * 12 * 2)%Z by lia.
  rewrite calculatepayments_Ok.
  split.
  - intros (n & n2 & m & s & b & w & Hn & Hn2 & Em & Es & Eb & Ew & ->).
    rewrite calculate_payment_zero_rate in Em, Es, Eb, Ew by assumption.
    apply truediv_Ok in Em as [Zm ->]. apply truediv_Ok in Es as [Zs ->].
    apply truediv_Ok in Eb as [Zb ->]. apply truediv_Ok in Ew as [Zw ->].
    exists n, n2. repeat split; assumption.
  - intros (n & n2 & Hn & Hn2 & Zm & Zs & Zb & Zw & ->).
    exists n, n2. do 4 eexists.
    rewrite !calculate_payment_zero_rate by assumption.
    repeat split; try eassumption; apply truediv_Ok; split;
      solve [assumption | reflexivity].
Qed.

End ZeroRate.

Section ZeroRateDoubles.
Context {L : Libm}.

(** The object [__init__] builds from the rate [0.0]. *)
Lemma init_zero_rate_b64 (P : float) (a t : Z) :
  init P 0%float a t =
  Ok {| principal := P; interestrate := 0%float;
        amortization_period := a; term := t;
        monthlyinterestrate := 0%float; semimonthlyinterestrate := 0%float;
        biweeklyinterestrate := 0%float; weeklyinterestrate := 0%float |}.
Proof. reflexivity. Qed.

(** At a zero rate a row that opens on a finite balance bears no interest. *)
Lemma interest_zero_b64 (self : MortgagePaymentCalculator float)
    (p : payments float) (name : string) (df : DataFrame float)
    (Pmt : float) (freq : Z) (Rate : float) (k : nat) (r : row float) :
  schedule_of self name df ->
  calculatepayments self = Ok p ->
  plan_of self p name Pmt freq Rate ->
  (Rate =? 0)%float = true ->
  nth_error (rows df) k = Some r ->
  is_finite (balance_before (principal self) (rows df) k) = true ->
  (row_Interest_Paid r =? 0)%float = true.
Proof.
  intros Hs Hp Hplan HR Hr Hfin.
  pose proof (schedule_rows_of Hs Hp Hplan) as Hrows.
  rewrite Hrows in Hr.
  destruct (simulate_nth _ _ _ _ _ Hr) as (i & _ & Hrow & _).
  rewrite <- Hrows in Hrow. rewrite Hrow.
  unfold period_row. cbn [row_Interest_Paid].
  apply b64_round2_zero. apply fmul_zero_r; assumption.
Qed.

End ZeroRateDoubles.

(** C8, as the code has it. On doubles, at the rate [0.0], the constructor
    returns an object whose four periodic rates are zero.  [calculatepayments]
    then returns exactly when the period counts [amortization * 12] and
    [amortization * 24] convert to floats and none of the four counts is zero;
    each base payment is the principal divided by the period count of its
    plan, and the rapid payments are the monthly payment divided by 2 and by
    4.  In every schedule a row that opens on a finite balance bears an
    interest of zero. *)
Theorem C8_zero_rate :
  forall (L : Libm) (P : float) (a t : Z),
  exists self,
    init (A := binary64) P 0%float a t = Ok self /\
    principal self = P /\ amortization_period self = a /\ term self = t /\
    (forall p,
        calculatepayments self = Ok p <->
        exists n12 n24,
          float_of_int (a * 12) = Ok n12 /\
          float_of_int (a * 24) = Ok n24 /\
          (n12 =? 0)%float = false /\
          (n24 =? 0)%float = false /\
          (n12 * (lit 26 / lit 12) =? 0)%float = false /\
          (n12 * (lit 52 / lit 12) =? 0)%float = false /\
          p = {| MonthlyPayment := (P / n12)%float;
                 SemiMonthlyPayment := (P / n24)%float;
                 BiweeklyPayment := (P / (n12 * (lit 26 / lit 12)))%float;
                 WeeklyPayment := (P / (n12 * (lit 52 / lit 12)))%float;
                 RapidBiweeklyPayment := (P / n12 / lit 2)%float;
                 RapidWeeklyPayment := (P / n12 / lit 4)%float |}) /\
    (forall name df k r,
        schedule_of self name df ->
        nth_error (rows df) k = Some r ->
        is_finite (balance_before P (rows df) k) = true ->
        (row_Interest_Paid r =? 0)%float = true).
Proof.
  intros L P a t. eexists. split; [apply init_zero_rate_b64|].
  cbn [principal amortization_period term].
  split; [reflexivity|]. split; [reflexivity|]. split; [reflexivity|]. split.
  - intros p.
    apply (calculatepayments_zero_rates (A := binary64)); reflexivity.
  - intros name df k r Hs Hr Hfin.
    destruct (schedule_rows Hs) as (p & Pmt & freq & Rate & Hp & Hplan & _).
    eapply interest_zero_b64; try eassumption.
    destruct (plan_of_rate Hplan) as [E|[E|[E|E]]]; rewrite E; reflexivity.
Qed.

(** ** The object, from one call to the next *)

Section ObjectProperties.

Context {F : Type} {A : Arith F}.

Local Open Scope method_scope.

(** *** The methods that assign nothing *)

(** A method body that leaves the object as it found it. *)
Definition keeps {X : Type} (m : method F X) : Prop :=
  forall self, snd (m self) = self.

Lemma keeps_ret {X : Type} (x : X) : keeps (ret x).
Proof. intros self. reflexivity. Qed.

Lemma keeps_eval {X : Type} (r : result X) : keeps (eval r).
Proof. intros self. destruct r; reflexivity. Qed.

Lemma keeps_getattr {X : Type} (attribute : object F -> option X) :
  keeps (getattr attribute).
Proof. intros self. unfold getattr. destruct (attribute self); reflexivity. Qed.

Lemma keeps_then {X Y : Type} (m : method F X) (k : X -> method F Y) :
  keeps m -> (forall x, keeps (k x)) -> keeps (then_ m k).
Proof.
  intros Hm Hk self. unfold then_. specialize (Hm self).
  destruct (m self) as [[x|e] self']; cbn [snd] in Hm; subst self'.
  - apply Hk.
  - reflexivity.
Qed.

Ltac keeps_steps :=
  repeat first
    [ apply keeps_ret | apply keeps_eval | apply keeps_getattr
    | apply keeps_then; [|intros ?] ].

Lemma keeps_calculate_payment (periodic_rate : F) (periods : result F) :
  keeps (method_calculate_payment periodic_rate periods).
Proof.
  unfold method_calculate_payment.
  destruct (feqb periodic_rate (lit 0)); keeps_steps.
Qed.

Lemma keeps_calculatepayments : keeps method_calculatepayments.
Proof.
  unfold method_calculatepayments.
  repeat first
    [ apply keeps_ret | apply keeps_eval | apply keeps_getattr
    | apply keeps_calculate_payment
    | apply keeps_then; [|intros ?] ].
Qed.

Lemma keeps_rates : keeps method_rates.
Proof. unfold method_rates. keeps_steps. Qed.

Lemma keeps_total_term_payments (items : dict Z) :
  forall d, keeps (method_total_term_payments items d).
Proof.
  induction items as [|[name freq] items IH]; intros d; cbn [method_total_term_payments].
  - apply keeps_ret.
  - apply keeps_then; [apply keeps_getattr|]. intros t. apply IH.
Qed.

Lemma keeps_schedule_loop (p : payments F) (total_ : dict Z) (rates_ : dict F)
    (names : list string) :
  forall schedules, keeps (method_schedule_loop p total_ rates_ names schedules).
Proof.
  induction names as [|name names IH]; intros schedules;
    cbn [method_schedule_loop].
  - apply keeps_ret.
  - apply keeps_then; [apply keeps_eval|]. intros Pmt.
    apply keeps_then; [apply keeps_eval|]. intros Term_Periods.
    apply keeps_then; [apply keeps_eval|]. intros Rate.
    apply keeps_then; [apply keeps_getattr|]. intros current_balance.
    apply IH.
Qed.

Lemma keeps_generate_schedule : keeps method_generate_schedule.
Proof.
  unfold method_generate_schedule.
  apply keeps_then; [apply keeps_calculatepayments|]. intros p.
  apply keeps_then; [apply keeps_rates|]. intros rates_.
  apply keeps_then; [apply keeps_total_term_payments|]. intros total_.
  apply keeps_schedule_loop.
Qed.

(** *** The methods on the object [__init__] leaves *)

Lemma calculate_payment_object (self : MortgagePaymentCalculator F)
    (periodic_rate : F) (periods : result F) :
  method_calculate_payment periodic_rate periods (object_of self)
  = (reported (n <- periods ;; calculate_payment self periodic_rate n),
     object_of self).
Proof.
  unfold method_calculate_payment, calculate_payment.
  destruct periods as [n|e]; cbn [bind];
    destruct (feqb periodic_rate (lit 0)); cbn; try reflexivity.
  - destruct (truediv (principal self) n); reflexivity.
  - destruct ((lit 1 .+ periodic_rate) ** n) as [x|e]; cbn; [|reflexivity].
    destruct (truediv _ _); reflexivity.
Qed.

Lemma calculatepayments_object (self : MortgagePaymentCalculator F) :
  method_calculatepayments (object_of self)
  = (reported (calculatepayments self), object_of self).
Proof.
  unfold method_calculatepayments, calculatepayments.
  unfold then_ at 1. cbn [getattr object_of attr_amortization_period].
  unfold then_ at 1. cbn [getattr object_of attr_monthlyinterestrate].
  unfold then_ at 1. rewrite calculate_payment_object.
  destruct (float_of_int (amortization_period self * 12)) as [n1|e];
    cbn [bind reported]; [|reflexivity].
  destruct (calculate_payment self (monthlyinterestrate self) n1) as [m|e];
    cbn [bind reported]; [|reflexivity].
  unfold then_ at 1. cbn [getattr object_of attr_semimonthlyinterestrate].
  unfold then_ at 1. rewrite calculate_payment_object.
  destruct (float_of_int (amortization_period self * 12 * 2)) as [n2|e];
    cbn [bind reported]; [|reflexivity].
  destruct (calculate_payment self (semimonthlyinterestrate self) n2) as [s|e];
    cbn [bind reported]; [|reflexivity].
  unfold then_ at 1. cbn [getattr object_of attr_biweeklyinterestrate].
  unfold then_ at 1. cbn [eval ret]. unfold then_ at 1.
  rewrite calculate_payment_object. cbn [bind].
  destruct (calculate_payment self (biweeklyinterestrate self) _) as [b|e];
    cbn [bind reported]; [|reflexivity].
  unfold then_ at 1. cbn [getattr object_of attr_weeklyinterestrate].
  unfold then_ at 1. cbn [eval ret]. unfold then_ at 1.
  rewrite calculate_payment_object. cbn [bind].
  destruct (calculate_payment self (weeklyinterestrate self) _) as [w|e];
    cbn [bind reported]; reflexivity.
Qed.

Lemma generate_schedule_object (self : MortgagePaymentCalculator F) :
  method_generate_schedule (object_of self)
  = (reported (generate_schedule self), object_of self).
Proof.
  unfold method_generate_schedule. unfold then_ at 1.
  rewrite calculatepayments_object, generate_schedule_eq.
  destruct (calculatepayments self) as [p|e]; reflexivity.
Qed.

(** *** [__init__] *)

Lemma init_object (principal_ interestrate_ : F) (amortization_period_ term_ : Z)
    (before : object F) :
  match init principal_ interestrate_ amortization_period_ term_ with
  | Ok self =>
      method_init principal_ interestrate_ amortization_period_ term_ before
      = (inl tt, object_of self)
  | Raise e =>
      fst (method_init principal_ interestrate_ amortization_period_ term_ before)
      = inr (Error e)
  end.
Proof.
  unfold init, method_init, then_. cbn.
  destruct ((lit 1 .+ (interestrate_ ./ lit 100) ./ lit 2) ** (lit 2 ./ lit 12))
    as [m|e]; cbn; [|reflexivity].
  destruct ((lit 1 .+ (interestrate_ ./ lit 100) ./ lit 2) ** (lit 2 ./ lit 24))
    as [s|e]; cbn; [|reflexivity].
  destruct ((lit 1 .+ (interestrate_ ./ lit 100) ./ lit 2) ** (lit 2 ./ lit 26))
    as [b|e]; cbn; [|reflexivity].
  destruct ((lit 1 .+ (interestrate_ ./ lit 100) ./ lit 2) ** (lit 2 ./ lit 52))
    as [w|e]; cbn; reflexivity.
Qed.

Lemma pipeline_object (principal_ interestrate_ : F)
    (amortization_period_ term_ : Z) (before : object F) :
  fst (method_pipeline principal_ interestrate_ amortization_period_ term_ before)
  = reported (pipeline principal_ interestrate_ amortization_period_ term_).
Proof.
  unfold method_pipeline, pipeline. unfold then_ at 1.
  pose proof (init_object principal_ interestrate_ amortization_period_ term_
                before) as Hinit.
  destruct (init principal_ interestrate_ amortization_period_ term_) as [self|e].
  - rewrite Hinit. cbn [bind]. unfold then_ at 1.
    rewrite calculatepayments_object.
    destruct (calculatepayments self) as [p|e]; cbn [reported bind fst];
      [|reflexivity].
    unfold then_ at 1. rewrite generate_schedule_object.
    destruct (generate_schedule self) as [d|e]; reflexivity.
  - destruct (method_init _ _ _ _ before) as [[u|e'] after]; cbn [fst] in Hinit;
      [discriminate|]. injection Hinit as ->. reflexivity.
Qed.

End ObjectProperties.

(** C9. The two methods assign no attribute: whatever the object holds,
    [calculatepayments] and [generate_schedule] leave it as they found it,
    whether they return or raise.  [__init__] assigns all eight attributes:
    when it returns, the object it leaves is the same whatever it held
    before.  So the pipeline of [main] run a second time, on the object the
    first run left, returns or raises what the first run did, as does
    [generate_schedule] called a second time on one object; and what the
    pipeline returns is what the functions of the payments and of the
    schedules give for the parameters alone. *)
Theorem C9_deterministic :
  forall (F : Type) (A : Arith F),
    (forall self : object F,
        snd (method_calculatepayments self) = self /\
        snd (method_generate_schedule self) = self) /\
    (forall (principal_ interestrate_ : F) (amortization_period_ term_ : Z)
            (before before' after : object F),
        method_init principal_ interestrate_ amortization_period_ term_ before
        = (inl tt, after) ->
        method_init principal_ interestrate_ amortization_period_ term_ before'
        = (inl tt, after)) /\
    (forall (principal_ interestrate_ : F) (amortization_period_ term_ : Z)
            (self : object F),
        let first :=
          method_pipeline principal_ interestrate_ amortization_period_ term_ self in
        let second :=
          method_pipeline principal_ interestrate_ amortization_period_ term_
            (snd first) in
        fst second = fst first /\
        fst first
        = reported (pipeline principal_ interestrate_ amortization_period_ term_)) /\
    (forall self : object F,
        method_generate_schedule (snd (method_generate_schedule self))
        = method_generate_schedule self).
Proof.
  intros F A. split; [|split; [|split]].
  - intros self. split; [apply keeps_calculatepayments | apply keeps_generate_schedule].
  - intros P pct a t before before' after H.
    pose proof (init_object P pct a t before) as H1.
    pose proof (init_object P pct a t before') as H2.
    destruct (init P pct a t) as [self|e].
    + rewrite H2. rewrite H1 in H. exact H.
    + rewrite H in H1. discriminate H1.
  - intros P pct a t self. cbv zeta. rewrite !pipeline_object. split; reflexivity.
  - intros self. rewrite (keeps_generate_schedule self). reflexivity.
Qed.


(** ** The periodic rates and the payment column *)

(** C2, as the code has it. The constructor takes the rate as a percentage
    and stores the fraction [r = interestrate / 100]; for each frequency [f]
    of 12, 24, 26 and 52 the periodic rate is [(1 + r/2) ** (2/f) - 1] for that
    fraction [r]; at a zero rate the four periodic rates are zero, in exact
    arithmetic and on doubles. *)
Theorem C2_periodic_rates :
  (forall (F : Type) (A : Arith F) (principal_ interestrate_ : F)
          (amortization_period_ term_ : Z) (self : MortgagePaymentCalculator F),
      init principal_ interestrate_ amortization_period_ term_ = Ok self ->
      let r := interestrate self in
      r = interestrate_ ./ lit 100 /\
      exists m s b w,
        (lit 1 .+ r ./ lit 2) ** (lit 2 ./ lit 12) = Ok m /\
        (lit 1 .+ r ./ lit 2) ** (lit 2 ./ lit 24) = Ok s /\
        (lit 1 .+ r ./ lit 2) ** (lit 2 ./ lit 26) = Ok b /\
        (lit 1 .+ r ./ lit 2) ** (lit 2 ./ lit 52) = Ok w /\
        monthlyinterestrate self = m .- lit 1 /\
        semimonthlyinterestrate self = s .- lit 1 /\
        biweeklyinterestrate self = b .- lit 1 /\
        weeklyinterestrate self = w .- lit 1) /\
  (forall (pw : PlatformPow) (principal_ interestrate_ : Q)
          (amortization_period_ term_ : Z),
      interestrate_ == 0 ->
      exists self,
        init (A := exact) principal_ interestrate_ amortization_period_ term_
        = Ok self /\
        monthlyinterestrate self == 0 /\ semimonthlyinterestrate self == 0 /\
        biweeklyinterestrate self == 0 /\ weeklyinterestrate self == 0) /\
  (forall (L : Libm) (principal_ : float) (amortization_period_ term_ : Z),
      exists self,
        init (A := binary64) principal_ 0%float amortization_period_ term_
        = Ok self /\
        monthlyinterestrate self = 0%float /\
        semimonthlyinterestrate self = 0%float /\
        biweeklyinterestrate self = 0%float /\
        weeklyinterestrate self = 0%float).
Proof.
  split; [|split].
  - intros F A P pct a t self H.
    destruct (init_Ok _ _ _ _ H) as (_ & Hr & _ & _ & Hrates).
    cbv zeta. split; [exact Hr | exact Hrates].
  - intros pw P pct a t Hpct. eexists.
    split; [apply (init_zero_rate P a t Hpct)|].
    cbn. repeat split; reflexivity.
  - intros L P a t. eexists. split; [vm_compute; reflexivity|].
    repeat split; reflexivity.
Qed.

(** C10. In every row of every schedule the payment column holds the rounded
    payment [round(Pmt, 2)], while the principal portion is computed from the
    payment [Pmt] as it is (or is the whole balance in a clamped row); in the
    clamped last row of the monthly schedule of a loan of 1 at a zero rate,
    amortized over one year and run for two, interest plus principal is 0.04
    against a payment column of 0.08, in exact arithmetic and on doubles. *)
Theorem C10_payment_column :
  (forall (F : Type) (A : Arith F) (self : MortgagePaymentCalculator F)
          (p : payments F) (name : string) (df : DataFrame F)
          (Pmt : F) (freq : Z) (Rate : F) (k : nat) (r : row F),
      schedule_of self name df ->
      calculatepayments self = Ok p ->
      plan_of self p name Pmt freq Rate ->
      nth_error (rows df) k = Some r ->
      row_Payment r = round2 Pmt /\
      (row_Principal_Paid r = round2 (Pmt .- row_Interest_Paid r) \/
       row_Principal_Paid r = balance_before (principal self) (rows df) k /\
       row_Ending_Balance r = lit 0)) /\
  (forall (pw : PlatformPow),
      exists self df r,
        init (A := exact) 1 0 1 2 = Ok self /\
        schedule_of self "Monthly" df /\
        nth_error (rows df) 12 = Some r /\
        row_Payment r == 8 # 100 /\
        row_Interest_Paid r + row_Principal_Paid r == 4 # 100 /\
        row_Ending_Balance r == 0)%Q /\
  (forall (L : Libm),
      exists self df r,
        init (A := binary64) 1%float 0%float 1 2 = Ok self /\
        schedule_of self "Monthly" df /\
        nth_error (rows df) 12 = Some r /\
        row_Payment r = 0.08%float /\
        (row_Interest_Paid r + row_Principal_Paid r)%float = 0.04%float /\
        row_Ending_Balance r = 0%float).
Proof.
  split; [|split].
  - intros F A self p name df Pmt freq Rate k r. apply payment_column.
  - intros pw. do 3 eexists.
    split; [vm_compute; reflexivity|].
    split; [eexists; split; vm_compute; reflexivity|].
    split; [vm_compute; reflexivity|].
    repeat split; reflexivity.
  - intros L. do 3 eexists.
    split; [vm_compute; reflexivity|].
    split; [eexists; split; vm_compute; reflexivity|].
    split; [vm_compute; reflexivity|].
    repeat split; reflexivity.
Qed.

(** ** Frames, plans and terms *)

Section Frames.

Context {F : Type} {A : Arith F}.

(** *** The columns of a frame *)

Lemma period_loop_aligned (Pmt Rate : F) :
  forall (periods : list Z) (cols : columns F) (b : F),
    aligned cols -> aligned (fst (period_loop Pmt Rate periods (cols, b))).
Proof.
  induction periods as [|i periods IH]; intros cols b Hal; [exact Hal|].
  cbn [period_loop].
  destruct (period_body_rows Pmt Rate i b Hal) as (Hal' & _ & _).
  destruct (fleb (snd (period_body Pmt Rate i (cols, b))) (lit 0)); [exact Hal'|].
  destruct (period_body Pmt Rate i (cols, b)) as [cols' b'].
  apply IH. exact Hal'.
Qed.

Lemma zip_rows_columns :
  forall (ps : list Z) (bs pays ints pps es : list F),
    List.length bs = List.length ps ->
    List.length pays = List.length ps ->
    List.length ints = List.length ps ->
    List.length pps = List.length ps ->
    List.length es = List.length ps ->
    let rs := zip_rows ps bs pays ints pps es in
    map (@row_Period F) rs = ps /\
    map (@row_Beginning_Balance F) rs = bs /\
    map (@row_Payment F) rs = pays /\
    map (@row_Interest_Paid F) rs = ints /\
    map (@row_Principal_Paid F) rs = pps /\
    map (@row_Ending_Balance F) rs = es.
Proof.
  induction ps as [|p ps IH]; intros bs pays ints pps es Hb Hpay Hi Hp He.
  - destruct bs, pays, ints, pps, es; try discriminate. cbn. repeat split.
  - destruct bs as [|b bs], pays as [|pay pays], ints as [|i ints],
             pps as [|pp pps], es as [|e es]; try discriminate.
    cbn [List.length] in *.
    destruct (IH bs pays ints pps es) as (H1 & H2 & H3 & H4 & H5 & H6);
      try congruence.
    cbn zeta in *. cbn [zip_rows map row_Period row_Beginning_Balance row_Payment
                        row_Interest_Paid row_Principal_Paid row_Ending_Balance].
    rewrite H1, H2, H3, H4, H5, H6. repeat split.
Qed.

Lemma plan_frame_columns (self : MortgagePaymentCalculator F) (Pmt : F)
    (Term_Periods : Z) (Rate : F) :
  let df := plan_frame self Pmt Term_Periods Rate in
  List.length (Beginning_Balance df) = List.length (Period df) /\
  List.length (Payment df) = List.length (Period df) /\
  List.length (Interest_Paid df) = List.length (Period df) /\
  List.length (Principal_Paid df) = List.length (Period df) /\
  List.length (Ending_Balance df) = List.length (Period df).
Proof.
  unfold plan_frame.
  pose proof (period_loop_aligned Pmt Rate (range 1 (Term_Periods + 1))
                (cols := no_columns) (principal self)) as H.
  destruct (period_loop Pmt Rate (range 1 (Term_Periods + 1))
              (no_columns, principal self)) as [cols b'].
  destruct H as (Hb & Hi & Hp & He); [repeat split|].
  cbn [fst] in *. cbn. rewrite repeat_length. repeat split; assumption.
Qed.

(** X2. The six columns of every frame [generate_schedule] returns have one
    length, the number of rows of the schedule, and the rows hold the columns
    entry by entry. *)
Theorem columns_of_one_length (self : MortgagePaymentCalculator F)
    (name : string) (df : DataFrame F) :
  schedule_of self name df ->
  (List.length (Period df) = List.length (rows df) /\
   List.length (Beginning_Balance df) = List.length (rows df) /\
   List.length (Payment df) = List.length (rows df) /\
   List.length (Interest_Paid df) = List.length (rows df) /\
   List.length (Principal_Paid df) = List.length (rows df) /\
   List.length (Ending_Balance df) = List.length (rows df)) /\
  (map (@row_Period F) (rows df) = Period df /\
   map (@row_Beginning_Balance F) (rows df) = Beginning_Balance df /\
   map (@row_Payment F) (rows df) = Payment df /\
   map (@row_Interest_Paid F) (rows df) = Interest_Paid df /\
   map (@row_Principal_Paid F) (rows df) = Principal_Paid df /\
   map (@row_Ending_Balance F) (rows df) = Ending_Balance df).
Proof.
  intros Hs.
  apply schedule_of_inv in Hs as (p & Pmt & freq & Rate & _ & _ & ->).
  destruct (plan_frame_columns self Pmt (term self * freq) Rate)
    as (Hb & Hpay & Hi & Hp & He).
  set (df := plan_frame self Pmt (term self * freq) Rate) in *.
  destruct (zip_rows_columns (Period df) (Beginning_Balance df) (Payment df)
              (Interest_Paid df) (Principal_Paid df) (Ending_Balance df)
              Hb Hpay Hi Hp He) as (M1 & M2 & M3 & M4 & M5 & M6).
  fold (rows df) in M1, M2, M3, M4, M5, M6.
  split; [|repeat split; assumption].
  assert (Hlen : List.length (Period df) = List.length (rows df))
    by (rewrite <- M1 at 1; apply length_map).
  repeat split; congruence.
Qed.

Lemma period_column (self : MortgagePaymentCalculator F)
    (name : string) (df : DataFrame F) :
  schedule_of self name df ->
  (forall k r, nth_error (rows df) k = Some r -> row_Period r = Z.of_nat k + 1) /\
  Period df = range 1 (Z.of_nat (List.length (rows df)) + 1).
Proof.
  intros Hs.
  assert (Hrow : forall k r, nth_error (rows df) k = Some r ->
                             row_Period r = Z.of_nat k + 1).
  { intros k r Hr.
    destruct (schedule_rows Hs) as (p & Pmt & freq & Rate & _ & _ & Hrows).
    rewrite Hrows in Hr.
    destruct (simulate_nth _ _ _ _ _ Hr) as (i & Hi & -> & _).
    apply range_nth in Hi. cbn [period_row row_Period]. lia. }
  split; [exact Hrow|].
  apply schedule_of_inv in Hs as Hinv.
  destruct Hinv as (p & Pmt & freq & Rate & _ & _ & Edf).
  pose proof (plan_frame_columns self Pmt (term self * freq) Rate) as Hc.
  rewrite <- Edf in Hc. cbv zeta in Hc. destruct Hc as (Hb & Hpay & Hi & Hp & He).
  destruct (zip_rows_columns (Period df) (Beginning_Balance df) (Payment df)
              (Interest_Paid df) (Principal_Paid df) (Ending_Balance df)
              Hb Hpay Hi Hp He) as (M1 & _).
  fold (rows df) in M1. rewrite <- M1.
  apply nth_error_ext. intros k.
  rewrite nth_error_map. unfold range. rewrite nth_error_map.
  replace (Z.of_nat (List.length (rows df)) + 1 - 1) with
    (Z.of_nat (List.length (rows df))) by lia.
  rewrite Nat2Z.id.
  destruct (nth_error (rows df) k) as [r|] eqn:Er.
  - assert (Hk : (k < List.length (rows df))%nat)
      by (apply nth_error_Some; congruence).
    cbn [option_map]. rewrite (Hrow k r Er).
    rewrite nth_error_seq. destruct (Nat.ltb_spec k (List.length (rows df))); [|lia].
    cbn [option_map]. f_equal. lia.
  - apply nth_error_None in Er.
    rewrite nth_error_seq. destruct (Nat.ltb_spec k (List.length (rows df))); [lia|].
    reflexivity.
Qed.

(** X1. The periods of a schedule count from one: row [k] (from zero) is
    period [k + 1], and the Period column is [1, 2, ..., n] for a schedule of
    [n] rows. *)
Theorem periods_count_from_one (self : MortgagePaymentCalculator F)
    (name : string) (df : DataFrame F) :
  schedule_of self name df ->
  (forall k r, nth_error (rows df) k = Some r -> row_Period r = Z.of_nat k + 1) /\
  Period df = range 1 (Z.of_nat (List.length (rows df)) + 1).
Proof.
  intros Hs. exact (period_column Hs).
Qed.

(** *** The result of [generate_schedule] *)

(** X3. [generate_schedule] raises exactly what [calculatepayments] raises:
    the loop over the plans raises nothing, no lookup of its dicts misses.
    When it returns, the result holds the six plans in the order of
    [payment_names], and a lookup at any other name is a [KeyError]. *)
Theorem generate_schedule_result (self : MortgagePaymentCalculator F) :
  (forall e, generate_schedule self = Raise e <-> calculatepayments self = Raise e) /\
  (forall schedules,
      generate_schedule self = Ok schedules ->
      map fst schedules = payment_names /\
      (forall name, In name payment_names ->
                    exists df, dict_get schedules name = Ok df) /\
      (forall name, ~ In name payment_names ->
                    dict_get schedules name = Raise KeyError)).
Proof.
  rewrite generate_schedule_eq. split.
  - intros e. destruct (calculatepayments self) as [p|e']; cbn [bind];
      split; intros H; solve [discriminate H | injection H as ->; reflexivity].
  - intros schedules H. apply bind_Ok in H as (p & _ & H). injection H as <-.
    split; [reflexivity|]. split.
    + intros name Hin. cbn in Hin.
      repeat (destruct Hin as [<-|Hin]; [eexists; reflexivity|]).
      contradiction.
    + intros name Hout. cbn [dict_get].
      repeat match goal with
             | |- context [String.eqb name ?k] =>
                 let E := fresh "E" in
                 destruct (String.eqb name k) eqn:E;
                 [apply String.eqb_eq in E; exfalso; apply Hout; subst name;
                  cbn; tauto |]
             end.
      reflexivity.
Qed.

Ltac key_cases name H :=
  repeat match type of H with
         | context [String.eqb name ?k] =>
             let E := fresh "E" in
             destruct (String.eqb name k) eqn:E;
             [apply String.eqb_eq in E; subst name; cbn in H |]
         end.

Lemma plan_of_freq (self : MortgagePaymentCalculator F) (p : payments F)
    (name : string) (Pmt : F) (freq : Z) (Rate : F) :
  plan_of self p name Pmt freq Rate -> 12 <= freq <= 52.
Proof.
  intros (_ & Hf & _). cbn in Hf.
  key_cases name Hf; try discriminate; injection Hf as <-; lia.
Qed.

Lemma range_nil (start stop : Z) : range start stop = [] <-> stop <= start.
Proof.
  unfold range. split.
  - intros H. apply (f_equal (@List.length Z)) in H.
    rewrite length_map, length_seq in H. cbn in H. lia.
  - intros H. replace (Z.to_nat (stop - start)) with 0%nat by lia. reflexivity.
Qed.

Lemma simulate_nil (Pmt Rate : F) (periods : list Z) (b : F) :
  simulate Pmt Rate periods b = [] <-> periods = [].
Proof.
  destruct periods as [|i periods]; cbn [simulate]; split; intros H;
    solve [reflexivity | discriminate].
Qed.

(** *** The term *)

Lemma rows_nil_iff_term (self : MortgagePaymentCalculator F)
    (name : string) (df : DataFrame F) :
  schedule_of self name df ->
  (rows df = [] <-> term self <= 0) /\
  (0 < term self ->
   exists r, nth_error (rows df) 0 = Some r /\ row_Period r = 1 /\
             row_Beginning_Balance r = round2 (principal self)).
Proof.
  intros Hs.
  destruct (schedule_rows Hs) as (p & Pmt & freq & Rate & _ & Hplan & Hrows).
  pose proof (plan_of_freq Hplan) as Hf.
  rewrite Hrows. split.
  - rewrite simulate_nil, range_nil. nia.
  - intros Ht.
    destruct (range 1 (term self * freq + 1)) as [|i periods] eqn:E.
    + apply range_nil in E. nia.
    + assert (Hi : nth_error (range 1 (term self * freq + 1)) 0 = Some i)
        by (rewrite E; reflexivity).
      apply range_nth in Hi. cbn [simulate nth_error].
      eexists. split; [reflexivity|]. cbn [period_row row_Period row_Beginning_Balance].
      split; [lia | reflexivity].
Qed.

(** X4. A schedule is empty exactly when the term is not positive; with a
    positive term it begins with period 1, entered with the principal. *)
Theorem empty_schedule_iff_term (self : MortgagePaymentCalculator F)
    (name : string) (df : DataFrame F) :
  schedule_of self name df ->
  (rows df = [] <-> term self <= 0) /\
  (0 < term self ->
   exists r, nth_error (rows df) 0 = Some r /\ row_Period r = 1 /\
             row_Beginning_Balance r = round2 (principal self)).
Proof.
  intros Hs. exact (rows_nil_iff_term Hs).
Qed.

(** *** A longer term *)

Lemma simulate_app (Pmt Rate : F) :
  forall (l1 l2 : list Z) (b : F),
    exists rest, simulate Pmt Rate (l1 ++ l2) b = simulate Pmt Rate l1 b ++ rest.
Proof.
  induction l1 as [|i l1 IH]; intros l2 b.
  - exists (simulate Pmt Rate l2 b). reflexivity.
  - cbn [app simulate].
    destruct (fleb (row_Ending_Balance (period_row Pmt Rate i b)) (lit 0)).
    + exists []. reflexivity.
    + destruct (IH l2 (row_Ending_Balance (period_row Pmt Rate i b))) as (rest & E).
      exists rest. rewrite E. reflexivity.
Qed.

Lemma map_seq_from (X : Type) :
  forall (len start : nat) (f : nat -> X),
    map f (seq start len) = map (fun k => f (start + k)%nat) (seq 0 len).
Proof.
  induction len as [|len IH]; intros start f; [reflexivity|].
  cbn [seq map]. f_equal; [f_equal; lia|].
  rewrite (IH (S start) f), (IH 1%nat (fun k => f (start + k)%nat)).
  apply map_ext. intros k. f_equal. lia.
Qed.

Lemma range_app (start mid stop : Z) :
  start <= mid <= stop -> range start stop = range start mid ++ range mid stop.
Proof.
  intros H. unfold range.
  replace (Z.to_nat (stop - start))
    with (Z.to_nat (mid - start) + Z.to_nat (stop - mid))%nat by lia.
  rewrite seq_app, map_app. f_equal.
  cbn [Nat.add]. rewrite map_seq_from.
  apply map_ext. intros k. lia.
Qed.

(** X5. A longer term only adds rows: the schedule of a plan for the term
    [t1] is the beginning of its schedule for a term [t2 >= t1], every other
    attribute being the same. *)
Theorem longer_term_extends (self : MortgagePaymentCalculator F) (t1 t2 : Z)
    (name : string) (df1 df2 : DataFrame F) :
  t1 <= t2 ->
  schedule_of (with_term self t1) name df1 ->
  schedule_of (with_term self t2) name df2 ->
  exists rest, rows df2 = rows df1 ++ rest.
Proof.
  intros Ht H1 H2.
  destruct (schedule_rows H1) as (p1 & Pmt1 & freq1 & Rate1 & Hp1 & Hplan1 & Hrows1).
  destruct (schedule_rows H2) as (p2 & Pmt2 & freq2 & Rate2 & Hp2 & Hplan2 & Hrows2).
  change (calculatepayments (with_term self t1)) with (calculatepayments self) in Hp1.
  change (calculatepayments (with_term self t2)) with (calculatepayments self) in Hp2.
  assert (p2 = p1) by congruence. subst p2.
  assert (Hplan2' : plan_of (with_term self t1) p1 name Pmt2 freq2 Rate2)
    by exact Hplan2.
  destruct (plan_of_fun Hplan1 Hplan2') as (<- & <- & <-).
  pose proof (plan_of_freq Hplan1) as Hf.
  rewrite Hrows1, Hrows2. cbn [term principal with_term].
  destruct (Z_le_gt_dec 0 (t1 * freq1)) as [Hpos|Hneg].
  - rewrite (@range_app 1 (t1 * freq1 + 1) (t2 * freq1 + 1)) by nia.
    apply simulate_app.
  - assert (E : range 1 (t1 * freq1 + 1) = []) by (apply range_nil; lia).
    rewrite E. cbn [simulate app]. eexists. reflexivity.
Qed.

(** *** [main] *)

(** The count a label shows is the number of rows of the schedule. *)
Lemma iloc_last_Period_schedule (self : MortgagePaymentCalculator F)
    (name : string) (df : DataFrame F) :
  schedule_of self name df ->
  iloc_last_Period df =
  match rows df with
  | [] => None
  | _ :: _ => Some (lit (Z.of_nat (List.length (rows df))))
  end.
Proof.
  intros Hs. unfold iloc_last_Period.
  destruct (period_column Hs) as [_ HP].
  rewrite HP. unfold range.
  replace (Z.to_nat (Z.of_nat (List.length (rows df)) + 1 - 1))
    with (List.length (rows df)) by lia.
  destruct (rows df) as [|r rs]; [reflexivity|].
  cbn [List.length]. rewrite seq_S, map_app, rev_app_distr.
  cbn [map rev app Nat.add]. do 2 f_equal. lia.
Qed.

Lemma plot_lines_Some (self : MortgagePaymentCalculator F) :
  forall items : dict (DataFrame F),
    (forall name df, In (name, df) items ->
                     schedule_of self name df /\ rows df <> []) ->
    exists lines, plot_lines items = Some lines /\ Forall2 line_of items lines.
Proof.
  induction items as [|[name df] items IH]; intros H.
  - exists []. split; [reflexivity | constructor].
  - destruct (H name df (or_introl eq_refl)) as [Hs Hne].
    destruct IH as (lines & E & Hall).
    { intros n d Hin. apply H. now right. }
    cbn [plot_lines]. rewrite (iloc_last_Period_schedule Hs).
    destruct (rows df) as [|r rs] eqn:Er; [contradiction|].
    rewrite E. eexists. split; [reflexivity|].
    constructor; [|exact Hall].
    unfold line_of. cbn [label_name line_x line_y label_payments fst snd].
    rewrite Er. repeat split.
Qed.

Lemma generate_schedule_items (self : MortgagePaymentCalculator F)
    (schedules : dict (DataFrame F)) :
  generate_schedule self = Ok schedules ->
  (exists df items, schedules = ("Monthly", df) :: items) /\
  (forall name df, In (name, df) schedules -> schedule_of self name df).
Proof.
  intros H. pose proof H as H0. rewrite generate_schedule_eq in H0.
  apply bind_Ok in H0 as (p & _ & H0). injection H0 as E.
  split; [rewrite <- E; eauto|].
  intros name df Hin. exists schedules. split; [exact H|].
  rewrite <- E in Hin |- *. cbn [In] in Hin.
  repeat (destruct Hin as [Hin|Hin]; [injection Hin as <- <-; reflexivity|]).
  contradiction.
Qed.

(** X13. How [main] ends once the constructor and [generate_schedule] have
    returned: with a term that is not positive the label of the first line
    raises [IndexError], the workbook being saved and the chart not; with a
    positive term the workbook and the chart are saved, the chart having one
    line per sheet, in the order of the sheets, that plots the Period and
    Ending Balance columns and whose label gives the plan's name and the
    number of rows of its schedule. *)
Theorem main_saves_or_raises (principal_ interestrate_ : F)
    (amortization_period_ term_ : Z) (self : MortgagePaymentCalculator F)
    (schedules : dict (DataFrame F)) :
  init principal_ interestrate_ amortization_period_ term_ = Ok self ->
  generate_schedule self = Ok schedules ->
  (term_ <= 0 ->
   main (Some principal_) (Some interestrate_) (Some amortization_period_)
        (Some term_) = raised_IndexError schedules) /\
  (0 < term_ ->
   exists lines,
     main (Some principal_) (Some interestrate_) (Some amortization_period_)
          (Some term_) = saved schedules lines /\
     Forall2 line_of schedules lines).
Proof.
  intros Hinit Hgen. unfold main. rewrite Hinit, Hgen.
  destruct (init_Ok _ _ _ _ Hinit) as (_ & _ & _ & Hterm & _).
  destruct (@generate_schedule_items self schedules Hgen) as ((df & items & E) & Hall).
  split.
  - intros Ht.
    assert (Hs : schedule_of self "Monthly" df)
      by (apply Hall; rewrite E; now left).
    assert (Hnil : rows df = [])
      by (apply (rows_nil_iff_term Hs); lia).
    rewrite E. cbn [plot_lines].
    rewrite (iloc_last_Period_schedule Hs), Hnil. reflexivity.
  - intros Ht.
    destruct (@plot_lines_Some self schedules) as (lines & El & HF).
    { intros name d Hin. pose proof (Hall name d Hin) as Hs. split; [exact Hs|].
      intros Hnil. apply (rows_nil_iff_term Hs) in Hnil. lia. }
    exists lines. rewrite El. split; [reflexivity | exact HF].
Qed.

End Frames.

(** ** Errors and signs, in exact arithmetic *)

Section Accounts.

Context {pw : PlatformPow}.

Open Scope Q_scope.

(** *** Amortization over no period *)

Lemma calculate_payment_no_period (self : MortgagePaymentCalculator Q) (r : Q) :
  calculate_payment self r (lit 0) = Raise ZeroDivisionError.
Proof.
  unfold calculate_payment. destruct (feqb r (lit 0)); [reflexivity|].
  reflexivity.
Qed.

Lemma calculatepayments_no_period (self : MortgagePaymentCalculator Q) :
  amortization_period self = 0%Z ->
  calculatepayments self = Raise ZeroDivisionError.
Proof.
  intros H. unfold calculatepayments. rewrite H.
  change (float_of_int (0 * 12)) with (Ok (lit 0)). cbn [bind].
  rewrite calculate_payment_no_period. reflexivity.
Qed.

(** *** The signs of the amounts *)

Lemma signs_exact (self : MortgagePaymentCalculator Q) (p : payments Q)
    (name : string) (df : DataFrame Q) (Pmt : Q) (freq : Z) (Rate : Q) :
  schedule_of self name df ->
  calculatepayments self = Ok p ->
  plan_of self p name Pmt freq Rate ->
  forall k r,
    nth_error (rows df) k = Some r ->
    (k = O -> 0 <= principal self) ->
    0 <= row_Beginning_Balance r /\
    (0 <= Rate -> 0 <= row_Interest_Paid r).
Proof.
  intros Hs Hp Hplan k r Hr Hk.
  pose proof (schedule_rows_of Hs Hp Hplan) as Hrows.
  assert (Hb : 0 <= balance_before (principal self) (rows df) k).
  { destruct k as [|k]; cbn [balance_before]; [now apply Hk|].
    destruct (nth_error (rows df) k) as [r0|] eqn:E.
    - exact (ending_balance_nonneg _ Hs E).
    - apply nth_error_None in E.
      assert (nth_error (rows df) (S k) <> None) by congruence.
      apply nth_error_Some in H. lia. }
  rewrite Hrows in Hr.
  destruct (simulate_nth _ _ _ _ _ Hr) as (i & _ & Hrow & _).
  rewrite <- Hrows in Hrow. rewrite Hrow.
  set (b := balance_before _ _ _) in *.
  unfold period_row. cbn [row_Beginning_Balance row_Interest_Paid].
  split; [now apply Qround2_nonneg|].
  intros HR. apply Qround2_nonneg. now apply Qmult_le_0_compat.
Qed.

End Accounts.

(** ** More on doubles *)

Section MoreDoubles.

Context {L : Libm}.

Lemma calculate_payment_no_period_b64 (self : MortgagePaymentCalculator float)
    (r : float) :
  calculate_payment self r (lit 0) = Raise ZeroDivisionError.
Proof.
  unfold calculate_payment. destruct (feqb r (lit 0)); [reflexivity|].
  reflexivity.
Qed.

Lemma calculatepayments_no_period_b64 (self : MortgagePaymentCalculator float) :
  amortization_period self = 0%Z ->
  calculatepayments self = Raise ZeroDivisionError.
Proof.
  intros H. unfold calculatepayments. rewrite H.
  change (float_of_int (0 * 12)) with (Ok (lit 0)). cbn [bind].
  rewrite calculate_payment_no_period_b64. reflexivity.
Qed.

(** The product of two doubles that are not below zero is not below zero. *)
Lemma fmul_not_negative (x y : float) :
  (x <? 0)%float = false -> (y <? 0)%float = false -> (x * y <? 0)%float = false.
Proof.
  rewrite !ltb_zero. intros Hx Hy. rewrite mul_spec.
  destruct (Prim2SF x) as [sx|sx| |sx mx ex]; try destruct sx; try contradiction;
    destruct (Prim2SF y) as [sy|sy| |sy my ey]; try destruct sy; try contradiction;
    cbn; try exact I; apply binary_round_aux_not_negative.
Qed.

Lemma period_row_signs_b64 (Pmt Rate : float) (i : Z) (b : float) :
  (b <? 0)%float = false ->
  let r := period_row Pmt Rate i b in
  (row_Beginning_Balance r <? 0)%float = false /\
  ((Rate <? 0)%float = false -> (row_Interest_Paid r <? 0)%float = false).
Proof.
  intros Hb. unfold period_row. cbn [row_Beginning_Balance row_Interest_Paid].
  split; [exact (b64_round2_not_negative Hb)|].
  intros HR. apply b64_round2_not_negative. apply fmul_not_negative; assumption.
Qed.

Lemma signs_b64 (self : MortgagePaymentCalculator float) (p : payments float)
    (name : string) (df : DataFrame float) (Pmt : float) (freq : Z) (Rate : float) :
  schedule_of self name df ->
  calculatepayments self = Ok p ->
  plan_of self p name Pmt freq Rate ->
  forall k r,
    nth_error (rows df) k = Some r ->
    (k = O -> (principal self <? 0)%float = false) ->
    (row_Beginning_Balance r <? 0)%float = false /\
    ((Rate <? 0)%float = false -> (row_Interest_Paid r <? 0)%float = false).
Proof.
  intros Hs Hp Hplan k r Hr Hk.
  pose proof (schedule_rows_of Hs Hp Hplan) as Hrows.
  assert (Hb : (balance_before (principal self) (rows df) k <? 0)%float = false).
  { destruct k as [|k]; cbn [balance_before]; [now apply Hk|].
    destruct (nth_error (rows df) k) as [r0|] eqn:E.
    - eapply ending_balance_not_negative_b64; eassumption.
    - apply nth_error_None in E.
      assert (nth_error (rows df) (S k) <> None) by congruence.
      apply nth_error_Some in H. lia. }
  rewrite Hrows in Hr.
  destruct (simulate_nth _ _ _ _ _ Hr) as (i & _ & Hrow & _).
  rewrite <- Hrows in Hrow. rewrite Hrow.
  apply period_row_signs_b64. exact Hb.
Qed.

End MoreDoubles.

(** ** Errors and signs, in both arithmetics *)

(** X6. An amortization period of zero makes [calculatepayments], and with it
    [generate_schedule], raise [ZeroDivisionError], at a zero rate (the
    principal is divided by no period) and at any other ([x ** 0] is one and
    the denominator [1 - 1]), in exact arithmetic and on doubles. *)
Theorem no_period_raises :
  (forall (pw : PlatformPow) (self : MortgagePaymentCalculator Q),
      amortization_period self = 0 ->
      calculatepayments (A := exact) self = Raise ZeroDivisionError /\
      generate_schedule (A := exact) self = Raise ZeroDivisionError) /\
  (forall (L : Libm) (self : MortgagePaymentCalculator float),
      amortization_period self = 0 ->
      calculatepayments (A := binary64) self = Raise ZeroDivisionError /\
      generate_schedule (A := binary64) self = Raise ZeroDivisionError).
Proof.
  split.
  - intros pw self H. pose proof (calculatepayments_no_period self H) as E.
    split; [exact E|]. unfold generate_schedule. rewrite E. reflexivity.
  - intros L self H. pose proof (calculatepayments_no_period_b64 self H) as E.
    split; [exact E|]. unfold generate_schedule. rewrite E. reflexivity.
Qed.

(** X12. No beginning balance is below zero, the first row's provided the
    principal is not, and with a periodic rate that is not below zero no
    interest is, in exact arithmetic and on doubles. *)
Theorem amounts_not_negative :
  (forall (pw : PlatformPow) (self : MortgagePaymentCalculator Q)
          (p : payments Q) (name : string) (df : DataFrame Q)
          (Pmt : Q) (freq : Z) (Rate : Q) (k : nat) (r : row Q),
      schedule_of (A := exact) self name df ->
      calculatepayments self = Ok p ->
      plan_of self p name Pmt freq Rate ->
      nth_error (rows df) k = Some r ->
      (k = O -> 0 <= principal self)%Q ->
      (0 <= row_Beginning_Balance r)%Q /\
      ((0 <= Rate)%Q -> (0 <= row_Interest_Paid r)%Q)) /\
  (forall (L : Libm) (self : MortgagePaymentCalculator float)
          (p : payments float) (name : string) (df : DataFrame float)
          (Pmt : float) (freq : Z) (Rate : float) (k : nat) (r : row float),
      schedule_of (A := binary64) self name df ->
      calculatepayments self = Ok p ->
      plan_of self p name Pmt freq Rate ->
      nth_error (rows df) k = Some r ->
      (k = O -> (principal self <? 0)%float = false) ->
      (row_Beginning_Balance r <? 0)%float = false /\
      ((Rate <? 0)%float = false -> (row_Interest_Paid r <? 0)%float = false)).
Proof.
  split.
  - intros pw self p name df Pmt freq Rate k r Hs Hp Hplan Hr Hk.
    exact (signs_exact Hs Hp Hplan Hr Hk).
  - intros L self p name df Pmt freq Rate k r Hs Hp Hplan Hr Hk.
    exact (signs_b64 Hs Hp Hplan Hr Hk).
Qed.

(** X10. On doubles, the schedule of a plan of a loan whose principal is
    zero, when the payment of the plan is zero and its periodic rate finite,
    has one row at most, and every amount of that row is zero. *)
Theorem zero_principal_schedule (L : Libm) (self : MortgagePaymentCalculator float)
    (p : payments float) (name : string) (df : DataFrame float)
    (Pmt : float) (freq : Z) (Rate : float) :
  schedule_of (A := binary64) self name df ->
  calculatepayments self = Ok p ->
  plan_of self p name Pmt freq Rate ->
  (principal self =? 0)%float = true ->
  (Pmt =? 0)%float = true ->
  is_finite Rate = true ->
  (List.length (rows df) <= 1)%nat /\
  (forall k r, nth_error (rows df) k = Some r ->
     (row_Beginning_Balance r =? 0)%float = true /\
     (row_Payment r =? 0)%float = true /\
     (row_Interest_Paid r =? 0)%float = true /\
     (row_Principal_Paid r =? 0)%float = true /\
     (row_Ending_Balance r =? 0)%float = true).
Proof.
  intros Hs Hp Hplan HP HPmt HR.
  eapply zero_principal_b64; eassumption.
Qed.

(** ** The theorems at concrete loans *)

#[local] Abbreviation zero_arith := (exact (pw := unused_pow)).
#[local] Abbreviation newton_arith := (exact (pw := newton_pow)).
#[local] Abbreviation doubles := (binary64 (L := unused_libm)).

Lemma small_loan_init : init (A := zero_arith) 1%Q 0%Q 1 2 = Ok small_loan.
Proof. reflexivity. Qed.

Lemma small_loan_payments :
  calculatepayments (A := zero_arith) small_loan = Ok small_payments.
Proof. reflexivity. Qed.

Lemma small_loan_plan : plan_of small_loan small_payments "Monthly" (1 # 12)%Q 12 0%Q.
Proof. repeat split. Qed.

Lemma small_loan_schedule : schedule_of (A := zero_arith) small_loan "Monthly" small_monthly.
Proof. exact (schedule_of_intro small_loan_payments small_loan_plan). Qed.

Lemma scenario_loan_init :
  init (A := newton_arith) 100000%Q 5%Q 25 5 = Ok scenario_loan.
Proof. vm_compute. reflexivity. Qed.

Lemma scenario_loan_payments :
  calculatepayments (A := newton_arith) scenario_loan = Ok scenario_payments.
Proof. vm_compute. reflexivity. Qed.

Lemma scenario_loan_plan :
  plan_of scenario_loan scenario_payments "Monthly"
    (MonthlyPayment scenario_payments) 12 (monthlyinterestrate scenario_loan).
Proof. repeat split. Qed.

Lemma scenario_loan_schedule :
  schedule_of (A := newton_arith) scenario_loan "Monthly" scenario_monthly.
Proof. exact (schedule_of_intro scenario_loan_payments scenario_loan_plan). Qed.

(** The scenario of the specification: the monthly payment is 581.60 to the
    cent, the schedule has the 60 rows of the term, the first row pays 412.39
    of interest and 169.21 of principal and ends on 99830.79, and the last
    row ends on 88507.86. *)
Lemma scenario_monthly_rows :
  List.length (rows scenario_monthly) = 60%nat /\
  exists first last,
    nth_error (rows scenario_monthly) 0 = Some first /\
    nth_error (rows scenario_monthly) 59 = Some last /\
    (row_Beginning_Balance first == 100000)%Q /\
    (row_Payment first == 58160 # 100)%Q /\
    (row_Interest_Paid first == 41239 # 100)%Q /\
    (row_Principal_Paid first == 16921 # 100)%Q /\
    (row_Ending_Balance first == 9983079 # 100)%Q /\
    (row_Ending_Balance last == 8850786 # 100)%Q.
Proof.
  split; [vm_compute; reflexivity|].
  do 2 eexists. split; [vm_compute; reflexivity|].
  split; [vm_compute; reflexivity|]. repeat split; reflexivity.
Qed.

Ltac nth_row df k r Hr :=
  let H := fresh in
  assert (H : { r | nth_error (rows df) k = Some r })
    by (eexists; vm_compute; reflexivity);
  destruct H as [r Hr].

Lemma C1_witness :
  (exists r,
      nth_error (rows small_monthly) 12 = Some r /\
      row_Beginning_Balance r = Qround2 (4 # 100) /\
      row_Interest_Paid r = Qround2 ((4 # 100) * 0) /\
      row_Principal_Paid r = (4 # 100)%Q /\
      row_Ending_Balance r = 0%Q) /\
  (exists r,
      nth_error (rows scenario_monthly) 0 = Some r /\
      let b := principal scenario_loan in
      let interestPortion := Qround2 (b * monthlyinterestrate scenario_loan) in
      let principalPortion :=
        Qround2 (MonthlyPayment scenario_payments - interestPortion) in
      row_Beginning_Balance r = Qround2 b /\
      row_Interest_Paid r = interestPortion /\
      row_Principal_Paid r = principalPortion /\
      row_Ending_Balance r = Qround2 (b - principalPortion))%Q.
Proof.
  split.
  - nth_row small_monthly 12%nat r Hr. exists r. split; [exact Hr|].
    pose proof (@C1_period_computation _ _ _ _ _ _ _ _ _ _ _ small_loan_schedule
                  small_loan_payments small_loan_plan Hr) as H.
    vm_compute in Hr. injection Hr as <-. exact H.
  - nth_row scenario_monthly 0%nat r Hr. exists r. split; [exact Hr|].
    pose proof (@C1_period_computation _ _ _ _ _ _ _ _ _ _ _ scenario_loan_schedule
                  scenario_loan_payments scenario_loan_plan Hr) as H.
    exact H.
Defined.

Lemma C2_witness :
  init (A := newton_arith) 100000%Q 5%Q 25 5 = Ok scenario_loan /\
  let r := interestrate scenario_loan in
  r = (5 / 100)%Q /\
  exists m s b w,
    Qpow (pw := newton_pow) (1 + r / 2) (2 / 12) = Ok m /\
    Qpow (pw := newton_pow) (1 + r / 2) (2 / 24) = Ok s /\
    Qpow (pw := newton_pow) (1 + r / 2) (2 / 26) = Ok b /\
    Qpow (pw := newton_pow) (1 + r / 2) (2 / 52) = Ok w /\
    monthlyinterestrate scenario_loan = (m - 1)%Q /\
    semimonthlyinterestrate scenario_loan = (s - 1)%Q /\
    biweeklyinterestrate scenario_loan = (b - 1)%Q /\
    weeklyinterestrate scenario_loan = (w - 1)%Q.
Proof.
  split; [exact scenario_loan_init|].
  exact (proj1 C2_periodic_rates Q newton_arith _ _ _ _ _ scenario_loan_init).
Defined.

Lemma C3_witness :
  calculatepayments (A := newton_arith) scenario_loan = Ok scenario_payments /\
  (exists n12 n24,
      float_of_int (A := newton_arith) (amortization_period scenario_loan * 12) = Ok n12 /\
      float_of_int (A := newton_arith) (amortization_period scenario_loan * 24) = Ok n24 /\
      annuity_payment (A := newton_arith) (principal scenario_loan)
        (monthlyinterestrate scenario_loan) n12
      = Ok (MonthlyPayment scenario_payments) /\
      annuity_payment (A := newton_arith) (principal scenario_loan)
        (semimonthlyinterestrate scenario_loan) n24
      = Ok (SemiMonthlyPayment scenario_payments) /\
      annuity_payment (A := newton_arith) (principal scenario_loan)
        (biweeklyinterestrate scenario_loan) (n12 * (26 / 12))%Q
      = Ok (BiweeklyPayment scenario_payments) /\
      annuity_payment (A := newton_arith) (principal scenario_loan)
        (weeklyinterestrate scenario_loan) (n12 * (52 / 12))%Q
      = Ok (WeeklyPayment scenario_payments)) /\
  (forall t, calculatepayments (A := newton_arith) (with_term scenario_loan t)
             = Ok scenario_payments).
Proof.
  split; [exact scenario_loan_payments|].
  exact (C3_base_payments (A := newton_arith) scenario_loan scenario_loan_payments).
Defined.

Lemma C7_witness :
  calculatepayments (A := newton_arith) scenario_loan = Ok scenario_payments /\
  RapidBiweeklyPayment scenario_payments = (MonthlyPayment scenario_payments / 2)%Q /\
  RapidWeeklyPayment scenario_payments = (MonthlyPayment scenario_payments / 4)%Q /\
  (exists n12,
      float_of_int (A := newton_arith) (amortization_period scenario_loan * 12) = Ok n12 /\
      annuity_payment (A := newton_arith) (principal scenario_loan)
        (monthlyinterestrate scenario_loan) n12
      = Ok (MonthlyPayment scenario_payments)) /\
  plan_of scenario_loan scenario_payments "Rapid Bi-Weekly"
    (MonthlyPayment scenario_payments / 2)%Q 26
    (biweeklyinterestrate scenario_loan) /\
  plan_of scenario_loan scenario_payments "Rapid Weekly"
    (MonthlyPayment scenario_payments / 4)%Q 52
    (weeklyinterestrate scenario_loan).
Proof.
  split; [exact scenario_loan_payments|].
  exact (C7_rapid_payments (A := newton_arith) scenario_loan scenario_loan_payments).
Defined.

Lemma C10_witness :
  exists r,
    nth_error (rows scenario_monthly) 0 = Some r /\
    row_Payment r = Qround2 (MonthlyPayment scenario_payments) /\
    (row_Principal_Paid r
     = Qround2 (MonthlyPayment scenario_payments - row_Interest_Paid r) \/
     row_Principal_Paid r
     = balance_before (principal scenario_loan) (rows scenario_monthly) 0 /\
     row_Ending_Balance r = 0%Q).
Proof.
  nth_row scenario_monthly 0%nat r Hr. exists r. split; [exact Hr|].
  exact (proj1 C10_payment_column _ _ _ _ _ _ _ _ _ _ _ scenario_loan_schedule
           scenario_loan_payments scenario_loan_plan Hr).
Defined.

Lemma small_loan_b64_init :
  init (A := doubles) 1%float 0%float 1 2 = Ok small_loan_b64.
Proof. reflexivity. Qed.

Lemma small_loan_b64_payments :
  calculatepayments (A := doubles) small_loan_b64 = Ok small_payments_b64.
Proof. vm_compute. reflexivity. Qed.

Lemma small_loan_b64_plan :
  plan_of small_loan_b64 small_payments_b64 "Monthly" (1 / 12)%float 12 0%float.
Proof. repeat split. Qed.

Lemma small_loan_b64_schedule :
  schedule_of (A := doubles) small_loan_b64 "Monthly" small_monthly_b64.
Proof. exact (schedule_of_intro small_loan_b64_payments small_loan_b64_plan). Qed.


Lemma C5_witness :
  exists r,
    nth_error (rows small_monthly_b64) 12 = Some r /\
    (row_Ending_Balance r <? 0)%float = false.
Proof.
  nth_row small_monthly_b64 12%nat r Hr. exists r. split; [exact Hr|].
  exact (@C5_ending_balances unused_libm small_loan_b64 "Monthly"
            small_monthly_b64 12%nat r small_loan_b64_schedule Hr).
Defined.

Lemma C6_witness :
  (List.length (rows small_monthly_b64)
   <= Z.to_nat (term small_loan_b64 * 12))%nat /\
  List.length (rows small_monthly_b64) = 13%nat /\
  exists r r',
    nth_error (rows small_monthly_b64) 11 = Some r /\
    nth_error (rows small_monthly_b64) 12 = Some r' /\
    ((0 <? row_Ending_Balance r)%float = true \/
     is_nan (row_Ending_Balance r) = true) /\
    ((row_Ending_Balance r' =? 0)%float = true \/
     (List.length (rows small_monthly_b64)
      = Z.to_nat (term small_loan_b64 * 12) /\
      ((0 <? row_Ending_Balance r')%float = true \/
       is_nan (row_Ending_Balance r') = true))).
Proof.
  destruct C6_length_and_payoff as (_ & _ & Hgen & Hb64).
  destruct (Hgen float doubles small_loan_b64 small_payments_b64 "Monthly"
              small_monthly_b64 (1 / 12)%float 12 0%float
              small_loan_b64_schedule small_loan_b64_payments
              small_loan_b64_plan) as (Hlen & _ & _).
  destruct (Hb64 unused_libm small_loan_b64 small_payments_b64 "Monthly"
              small_monthly_b64 (1 / 12)%float 12 0%float
              small_loan_b64_schedule small_loan_b64_payments
              small_loan_b64_plan) as (Hnl & _ & Hlast).
  split; [exact Hlen|]. split; [reflexivity|].
  nth_row small_monthly_b64 11%nat r Hr. nth_row small_monthly_b64 12%nat r' Hr'.
  exists r, r'. split; [exact Hr|]. split; [exact Hr'|]. split.
  - apply (Hnl 11%nat r Hr). vm_compute. lia.
  - apply (Hlast 12%nat r' Hr'). reflexivity.
Defined.

Lemma C8_witness :
  exists self,
    init (A := doubles) 1%float 0%float 1 2 = Ok self /\
    calculatepayments (A := doubles) self = Ok small_payments_b64 /\
    exists r,
      nth_error (rows small_monthly_b64) 0 = Some r /\
      (row_Interest_Paid r =? 0)%float = true.
Proof.
  destruct (C8_zero_rate unused_libm 1%float 1 2)
    as (self & Hi & _ & _ & _ & Hpay & Hint).
  exists self. split; [exact Hi|].
  rewrite small_loan_b64_init in Hi. injection Hi as <-. split.
  - apply Hpay. exists 12%float, 24%float.
    repeat (split; [reflexivity|]). reflexivity.
  - nth_row small_monthly_b64 0%nat r Hr. exists r. split; [exact Hr|].
    exact (Hint "Monthly" small_monthly_b64 0%nat r small_loan_b64_schedule Hr
             eq_refl).
Defined.

Lemma C9_witness :
  let first := method_pipeline (A := doubles) 1%float 0%float 1 2 new_object in
  let second :=
    method_pipeline (A := doubles) 1%float 0%float 1 2 (snd first) in
  fst second = fst first /\
  fst first = reported (pipeline (A := doubles) 1%float 0%float 1 2) /\
  snd (method_generate_schedule (A := doubles) (snd first)) = snd first.
Proof.
  destruct (@C9_deterministic float doubles) as (Hkeeps & _ & Hrun & _).
  cbv zeta. split; [|split].
  - exact (proj1 (Hrun 1%float 0%float 1 2 new_object)).
  - exact (proj2 (Hrun 1%float 0%float 1 2 new_object)).
  - exact (proj2 (Hkeeps _)).
Defined.

(** The claim C2 fails on a rate supplied as the fraction 0.055: the object
    stores 0.00055, and with the power [newton_pow] the monthly rate is not
    [(1 + 0.055/2) ** (2/12) - 1] (it is about 0.0000458, not 0.00453). *)
Lemma C2_counterexample :
  exists self x,
    init (A := newton_arith) 100000%Q (55 # 1000)%Q 25 5 = Ok self /\
    (interestrate self == 55 # 100000)%Q /\
    Qpow (pw := newton_pow) (1 + (55 # 1000) / 2)%Q (2 / 12)%Q = Ok x /\
    (monthlyinterestrate self < 1 # 10000)%Q /\
    (4 # 1000 < x - 1)%Q /\
    ~ (monthlyinterestrate self == x - 1)%Q.
Proof.
  do 2 eexists.
  split; [vm_compute; reflexivity|].
  split; [reflexivity|].
  split; [vm_compute; reflexivity|].
  split; [reflexivity|]. split; [reflexivity|]. discriminate.
Qed.


(** The claim C5 fails in its first half, on doubles.  On a loan of 1200 at
    a zero rate with an amortization period of -1 year and a term of 1 year
    the payment is -100 and the ending balances of the monthly schedule rise,
    1300 then 1400.  On a loan of 1e307 at a zero rate, amortized over one
    year and run for one, the first row ends on infinity and the second on a
    NaN, which is not at most the balance before it.  With ordinary positive
    amounts: simulated from a principal of 29333146.27 with the payment
    1111456.835 and the monthly rate 0.03789081555621343 (the monthly rate of
    50 percent, and the payment the annuity formula gives for it over 100
    years), a payment that covers the interest [principal * rate], the
    interest rounds up to 1111456.84, the principal paid is -0.01 in each
    row and the ending balances rise by a cent a row. *)
Lemma C5_counterexample :
  (exists self df r r',
      init (A := doubles) 1200%float 0%float (-1) 1 = Ok self /\
      schedule_of (A := doubles) self "Monthly" df /\
      nth_error (rows df) 0 = Some r /\
      nth_error (rows df) 1 = Some r' /\
      row_Ending_Balance r = 1300%float /\
      row_Ending_Balance r' = 1400%float /\
      (row_Ending_Balance r' <=? row_Ending_Balance r)%float = false) /\
  (exists self df r r',
      init (A := doubles) 1e307%float 0%float 1 1 = Ok self /\
      schedule_of (A := doubles) self "Monthly" df /\
      nth_error (rows df) 0 = Some r /\
      nth_error (rows df) 1 = Some r' /\
      row_Ending_Balance r = infinity /\
      is_nan (row_Ending_Balance r') = true /\
      (row_Ending_Balance r' <=? row_Ending_Balance r)%float = false) /\
  (exists (self : MortgagePaymentCalculator float) (Pmt Rate : float) r r',
      principal self = 29333146.27%float /\
      term self = 1 /\
      Pmt = 1111456.835%float /\
      Rate = 0.03789081555621343%float /\
      (principal self * Rate <=? Pmt)%float = true /\
      nth_error (rows (plan_frame (A := doubles) self Pmt (term self * 12) Rate)) 0
      = Some r /\
      nth_error (rows (plan_frame (A := doubles) self Pmt (term self * 12) Rate)) 1
      = Some r' /\
      row_Interest_Paid r = 1111456.84%float /\
      row_Principal_Paid r = (-0.01)%float /\
      row_Ending_Balance r = 29333146.28%float /\
      row_Principal_Paid r' = (-0.01)%float /\
      row_Ending_Balance r' = 29333146.29%float /\
      (row_Ending_Balance r' <=? row_Ending_Balance r)%float = false).
Proof.
  split; [|split].
  - do 4 eexists.
    split; [vm_compute; reflexivity|].
    split; [eexists; split; vm_compute; reflexivity|].
    split; [vm_compute; reflexivity|].
    split; [vm_compute; reflexivity|].
    repeat split; reflexivity.
  - do 4 eexists.
    split; [vm_compute; reflexivity|].
    split; [eexists; split; vm_compute; reflexivity|].
    split; [vm_compute; reflexivity|].
    split; [vm_compute; reflexivity|].
    repeat split; reflexivity.
  - exists {| principal := 29333146.27%float; interestrate := 0.5%float;
              amortization_period := 100; term := 1;
              monthlyinterestrate := 0.03789081555621343%float;
              semimonthlyinterestrate := 0.018769265121506118%float;
              biweeklyinterestrate := 0.01731305178338105%float;
              weeklyinterestrate := 0.008619379044137121%float |}.
    do 4 eexists.
    split; [reflexivity|]. split; [reflexivity|].
    split; [reflexivity|]. split; [reflexivity|].
    split; [vm_compute; reflexivity|].
    split; [vm_compute; reflexivity|].
    split; [vm_compute; reflexivity|].
    repeat split; vm_compute; reflexivity.
Qed.

(** The claim C6 fails in its last part where a balance is a NaN: the
    monthly schedule of a loan whose principal is a NaN, and that of a loan
    of 1e307, at a zero rate over a term of one year, have the 12 rows of the
    term and end on a NaN, a balance that is neither zero nor positive. *)
Lemma C6_counterexample :
  (exists self df r,
      init (A := doubles) nan 0%float 1 1 = Ok self /\
      schedule_of (A := doubles) self "Monthly" df /\
      List.length (rows df) = Z.to_nat (term self * 12) /\
      nth_error (rows df) 11 = Some r /\
      (row_Ending_Balance r =? 0)%float = false /\
      (0 <? row_Ending_Balance r)%float = false) /\
  (exists self df r,
      init (A := doubles) 1e307%float 0%float 1 1 = Ok self /\
      schedule_of (A := doubles) self "Monthly" df /\
      List.length (rows df) = Z.to_nat (term self * 12) /\
      nth_error (rows df) 11 = Some r /\
      (row_Ending_Balance r =? 0)%float = false /\
      (0 <? row_Ending_Balance r)%float = false).
Proof.
  split.
  - do 3 eexists.
    split; [vm_compute; reflexivity|].
    split; [eexists; split; vm_compute; reflexivity|].
    split; [vm_compute; reflexivity|].
    split; [vm_compute; reflexivity|].
    split; reflexivity.
  - do 3 eexists.
    split; [vm_compute; reflexivity|].
    split; [eexists; split; vm_compute; reflexivity|].
    split; [vm_compute; reflexivity|].
    split; [vm_compute; reflexivity|].
    split; reflexivity.
Qed.

(** The claim C8 fails, on doubles, in each of its parts.  The rapid plans:
    for a loan of 1200 at a zero rate amortized over one year the Rapid
    Bi-Weekly payment is 50, which is not the principal divided by the 26
    periods of the plan.  The interest: for a loan of 1e307 the second row of
    the monthly schedule opens on infinity and its interest, infinity times
    zero, is a NaN.  The error: with an amortization period of [2 ^ 1020]
    years the count of semi-monthly periods does not convert to a float and
    [calculatepayments] raises [OverflowError], and with one of 0 years it
    raises [ZeroDivisionError]. *)
Lemma C8_counterexample :
  (exists self p,
      init (A := doubles) 1200%float 0%float 1 1 = Ok self /\
      calculatepayments (A := doubles) self = Ok p /\
      plan_of self p "Rapid Bi-Weekly" (RapidBiweeklyPayment p) 26
        (biweeklyinterestrate self) /\
      biweeklyinterestrate self = 0%float /\
      RapidBiweeklyPayment p = 50%float /\
      (RapidBiweeklyPayment p
       =? principal self / b64_of_Z (amortization_period self * 26))%float = false) /\
  (exists self df r,
      init (A := doubles) 1e307%float 0%float 1 1 = Ok self /\
      schedule_of (A := doubles) self "Monthly" df /\
      nth_error (rows df) 1 = Some r /\
      is_nan (row_Interest_Paid r) = true /\
      (row_Interest_Paid r =? 0)%float = false) /\
  (exists self,
      init (A := doubles) 1200%float 0%float (2 ^ 1020) 1 = Ok self /\
      calculatepayments (A := doubles) self = Raise OverflowError /\
      generate_schedule (A := doubles) self = Raise OverflowError) /\
  (exists self,
      init (A := doubles) 1200%float 0%float 0 1 = Ok self /\
      calculatepayments (A := doubles) self = Raise ZeroDivisionError /\
      generate_schedule (A := doubles) self = Raise ZeroDivisionError).
Proof.
  split; [|split; [|split]].
  - do 2 eexists.
    split; [vm_compute; reflexivity|].
    split; [vm_compute; reflexivity|].
    split; [repeat split|].
    repeat split; reflexivity.
  - do 3 eexists.
    split; [vm_compute; reflexivity|].
    split; [eexists; split; vm_compute; reflexivity|].
    split; [vm_compute; reflexivity|].
    split; reflexivity.
  - eexists.
    split; [vm_compute; reflexivity|].
    split; vm_compute; reflexivity.
  - eexists.
    split; [vm_compute; reflexivity|].
    split; vm_compute; reflexivity.
Qed.


(** ** The further theorems at concrete loans *)

Lemma periods_count_from_one_witness :
  Period scenario_monthly
  = range 1 (Z.of_nat (List.length (rows scenario_monthly)) + 1) /\
  exists r, nth_error (rows scenario_monthly) 59 = Some r /\ row_Period r = 60.
Proof.
  destruct (periods_count_from_one scenario_loan_schedule) as [Hrow Hcol].
  split; [exact Hcol|].
  nth_row scenario_monthly 59%nat r Hr. exists r. split; [exact Hr|].
  exact (Hrow 59%nat r Hr).
Defined.

Lemma columns_of_one_length_witness :
  List.length (Period small_monthly) = List.length (rows small_monthly) /\
  List.length (Payment small_monthly) = List.length (rows small_monthly) /\
  map (@row_Ending_Balance Q) (rows small_monthly) = Ending_Balance small_monthly.
Proof.
  destruct (columns_of_one_length small_loan_schedule)
    as ((H1 & _ & H3 & _) & (_ & _ & _ & _ & _ & M6)).
  split; [exact H1|]. split; [exact H3 | exact M6].
Defined.

Lemma generate_schedule_result_witness :
  exists schedules,
    generate_schedule (A := zero_arith) small_loan = Ok schedules /\
    map fst schedules = payment_names /\
    (exists df, dict_get schedules "Rapid Weekly" = Ok df) /\
    dict_get schedules "Quarterly" = Raise KeyError.
Proof.
  assert (Hg : { d | generate_schedule (A := zero_arith) small_loan = Ok d })
    by (eexists; vm_compute; reflexivity).
  destruct Hg as [d Hd]. exists d. split; [exact Hd|].
  destruct (proj2 (generate_schedule_result (A := zero_arith) small_loan) d Hd)
    as (Hkeys & Hin & Hout).
  split; [exact Hkeys|]. split.
  - apply Hin. cbn. tauto.
  - apply Hout. cbn. intros [H|[H|[H|[H|[H|[H|[]]]]]]]; discriminate H.
Defined.

Lemma empty_schedule_iff_term_witness :
  ((rows small_monthly = [] <-> term small_loan <= 0) /\
   exists r, nth_error (rows small_monthly) 0 = Some r /\ row_Period r = 1 /\
             row_Beginning_Balance r = Qround2 (principal small_loan)) /\
  rows (plan_frame (A := zero_arith) (with_term small_loan 0) (1 # 12)%Q (0 * 12) 0%Q)
  = [].
Proof.
  split.
  - destruct (empty_schedule_iff_term small_loan_schedule) as [Hiff Hfirst].
    split; [exact Hiff|]. apply Hfirst. reflexivity.
  - assert (Hs : schedule_of (A := zero_arith) (with_term small_loan 0) "Monthly"
                   (plan_frame (A := zero_arith) (with_term small_loan 0)
                      (1 # 12)%Q (0 * 12) 0%Q))
      by (exact (schedule_of_intro (self := with_term small_loan 0)
                   small_loan_payments small_loan_plan)).
    apply (empty_schedule_iff_term Hs). discriminate.
Defined.

Lemma longer_term_extends_witness :
  exists rest,
    rows small_monthly
    = rows (plan_frame (A := zero_arith) (with_term small_loan 1) (1 # 12)%Q (1 * 12) 0%Q)
      ++ rest.
Proof.
  assert (Hs : schedule_of (A := zero_arith) (with_term small_loan 1) "Monthly"
                 (plan_frame (A := zero_arith) (with_term small_loan 1)
                    (1 # 12)%Q (1 * 12) 0%Q))
    by (exact (schedule_of_intro (self := with_term small_loan 1)
                 small_loan_payments small_loan_plan)).
  assert (Ht : 1 <= 2) by discriminate.
  exact (@longer_term_extends _ zero_arith small_loan 1 2 "Monthly" _ _ Ht Hs
           small_loan_schedule).
Defined.

Lemma no_period_raises_witness :
  generate_schedule (A := zero_arith)
    {| principal := 1200%Q; interestrate := (5 # 100)%Q; amortization_period := 0;
       term := 1; monthlyinterestrate := (4 # 1000)%Q;
       semimonthlyinterestrate := (2 # 1000)%Q;
       biweeklyinterestrate := (19 # 10000)%Q;
       weeklyinterestrate := (9 # 10000)%Q |}
  = Raise ZeroDivisionError /\
  generate_schedule (A := doubles)
    {| principal := 1200%float; interestrate := 0%float; amortization_period := 0;
       term := 1; monthlyinterestrate := 0%float;
       semimonthlyinterestrate := 0%float; biweeklyinterestrate := 0%float;
       weeklyinterestrate := 0%float |}
  = Raise ZeroDivisionError.
Proof.
  split.
  - refine (proj2 (proj1 no_period_raises unused_pow _ _)). reflexivity.
  - refine (proj2 (proj2 no_period_raises unused_libm _ _)). reflexivity.
Defined.

Lemma amounts_not_negative_witness :
  (exists r,
      nth_error (rows scenario_monthly) 1 = Some r /\
      (0 <= monthlyinterestrate scenario_loan)%Q /\
      (0 <= row_Beginning_Balance r)%Q /\ (0 <= row_Interest_Paid r)%Q) /\
  (exists self p df r,
      init (A := doubles) 1%float 0%float 1 2 = Ok self /\
      calculatepayments (A := doubles) self = Ok p /\
      schedule_of (A := doubles) self "Monthly" df /\
      nth_error (rows df) 0 = Some r /\
      (principal self <? 0)%float = false /\
      (monthlyinterestrate self <? 0)%float = false /\
      (row_Beginning_Balance r <? 0)%float = false /\
      (row_Interest_Paid r <? 0)%float = false).
Proof.
  split.
  - nth_row scenario_monthly 1%nat r Hr. exists r. split; [exact Hr|].
    assert (HR : (0 <= monthlyinterestrate scenario_loan)%Q)
      by (vm_compute; discriminate).
    split; [exact HR|].
    assert (Hk : 1%nat = O -> (0 <= principal scenario_loan)%Q) by discriminate.
    destruct (proj1 amounts_not_negative _ _ _ _ _ _ _ _ _ _
                scenario_loan_schedule scenario_loan_payments scenario_loan_plan
                Hr Hk) as [Hb Hi].
    split; [exact Hb | exact (Hi HR)].
  - assert (Hself : { self | init (A := doubles) 1%float 0%float 1 2 = Ok self })
      by (eexists; vm_compute; reflexivity).
    destruct Hself as [self Hself].
    assert (Hp : { p | calculatepayments (A := doubles) self = Ok p }).
    { vm_compute in Hself. injection Hself as <-. eexists. vm_compute. reflexivity. }
    destruct Hp as [p Hp].
    assert (Hplan : plan_of self p "Monthly" (MonthlyPayment p) 12
                      (monthlyinterestrate self)) by (repeat split).
    pose proof (schedule_of_intro Hp Hplan) as Hs.
    assert (HP : (principal self <? 0)%float = false).
    { vm_compute in Hself. injection Hself as <-. reflexivity. }
    assert (HR : (monthlyinterestrate self <? 0)%float = false).
    { vm_compute in Hself. injection Hself as <-. reflexivity. }
    destruct (proj2 (rows_nil_iff_term Hs)) as (r & Hr & _).
    { vm_compute in Hself. injection Hself as <-. reflexivity. }
    destruct (proj2 amounts_not_negative _ _ _ _ _ _ _ _ _ _
                Hs Hp Hplan Hr (fun _ => HP)) as [Hb Hi].
    exists self, p. eexists. exists r.
    split; [exact Hself|]. split; [exact Hp|]. split; [exact Hs|].
    split; [exact Hr|]. split; [exact HP|]. split; [exact HR|].
    split; [exact Hb | exact (Hi HR)].
Defined.

Lemma main_saves_or_raises_witness :
  (exists schedules lines,
      generate_schedule (A := zero_arith) small_loan = Ok schedules /\
      main (A := zero_arith) (Some 1%Q) (Some 0%Q) (Some 1) (Some 2)
      = saved schedules lines /\
      Forall2 (line_of (A := zero_arith)) schedules lines) /\
  (exists schedules,
      generate_schedule (A := zero_arith) (with_term small_loan 0) = Ok schedules /\
      main (A := zero_arith) (Some 1%Q) (Some 0%Q) (Some 1) (Some 0)
      = raised_IndexError schedules).
Proof.
  split.
  - assert (Hg : { d | generate_schedule (A := zero_arith) small_loan = Ok d })
      by (eexists; vm_compute; reflexivity).
    destruct Hg as [d Hd].
    destruct (@main_saves_or_raises _ zero_arith _ _ _ _ _ _ small_loan_init Hd)
      as [_ Hsaved].
    destruct (Hsaved eq_refl) as (lines & Hm & HF).
    exists d, lines. split; [exact Hd|]. split; [exact Hm | exact HF].
  - assert (Hi : init (A := zero_arith) 1%Q 0%Q 1 0 = Ok (with_term small_loan 0))
      by reflexivity.
    assert (Hg : { d | generate_schedule (A := zero_arith) (with_term small_loan 0)
                       = Ok d })
      by (eexists; vm_compute; reflexivity).
    destruct Hg as [d Hd].
    destruct (@main_saves_or_raises _ zero_arith _ _ _ _ _ _ Hi Hd) as [Hraised _].
    exists d. split; [exact Hd|]. apply Hraised. discriminate.
Defined.

Lemma zero_principal_schedule_witness :
  exists self p df r,
    init (A := doubles) 0%float 0%float 1 2 = Ok self /\
    calculatepayments (A := doubles) self = Ok p /\
    schedule_of (A := doubles) self "Monthly" df /\
    (List.length (rows df) <= 1)%nat /\
    nth_error (rows df) 0 = Some r /\
    (row_Payment r =? 0)%float = true /\
    (row_Ending_Balance r =? 0)%float = true.
Proof.
  pose (self := {| principal := 0%float; interestrate := 0%float;
                   amortization_period := 1; term := 2;
                   monthlyinterestrate := 0%float;
                   semimonthlyinterestrate := 0%float;
                   biweeklyinterestrate := 0%float;
                   weeklyinterestrate := 0%float |}).
  pose (p := {| MonthlyPayment := 0%float; SemiMonthlyPayment := 0%float;
                BiweeklyPayment := 0%float; WeeklyPayment := 0%float;
                RapidBiweeklyPayment := 0%float;
                RapidWeeklyPayment := 0%float |}).
  pose (df := plan_frame (A := doubles) self 0%float (2 * 12) 0%float).
  assert (Hp : calculatepayments (A := doubles) self = Ok p)
    by (vm_compute; reflexivity).
  assert (Hplan : plan_of self p "Monthly" 0%float 12 0%float)
    by (repeat split).
  assert (Hs : schedule_of (A := doubles) self "Monthly" df)
    by exact (schedule_of_intro Hp Hplan).
  destruct (@zero_principal_schedule unused_libm self p "Monthly" df
              0%float 12 0%float Hs Hp Hplan eq_refl eq_refl eq_refl)
    as [Hlen Hrows].
  nth_row df 0%nat r Hr.
  exists self, p, df, r.
  split; [reflexivity|]. split; [exact Hp|]. split; [exact Hs|].
  split; [exact Hlen|]. split; [exact Hr|].
  destruct (Hrows 0%nat r Hr) as (_ & HPay & _ & _ & HEnd).
  split; assumption.
Defined.
